(** * Econet_RAG: the request gateway of [app.py]

    A shallow embedding of the two FastAPI handlers ([ask_question],
    [process_feedback]) and of the credential dependency ([get_api_key]),
    with the session, the server log and the two collaborators ([rag],
    [submit_feedback]) made explicit.

    Python values are a small inductive type, dictionaries are finite maps
    with string keys, and a handler is a computation in a state-and-exception
    monad: it either returns a dictionary (FastAPI answers 200 with it as the
    JSON body) or raises (FastAPI answers a raised [HTTPException (c, d)] with
    status [c] and body [{"detail": d}]). *)

From Stdlib Require Import ZArith List.
From Stdlib Require Import Floats.SpecFloat.
From stdpp Require Import base option list strings gmap fin_maps.

Local Open Scope string_scope.
Local Open Scope list_scope.
Local Open Scope Z_scope.

Set Warnings "-register-all".

(** ** Python values *)

(** The values that travel through the gateway: what a JSON body or a
    cookie-backed session can hold. *)
Inductive value : Type :=
  | VNone
  | VBool (b : bool)
  | VInt (n : Z)
  | VFloat (x : spec_float)
  | VStr (s : string)
  | VList (items : list value)
  | VDict (items : list (string * value)).

(** Python truth value testing, as [not v] and [if v] use it: [None], [False],
    zero of either sign, and the empty string, list and dict are false. *)
Definition truthy (v : value) : bool :=
  match v with
  | VNone => false
  | VBool b => b
  | VInt n => negb (n =? 0)
  | VFloat (S754_zero _) => false
  | VFloat _ => true
  | VStr s => negb (bool_decide (s = ""))
  | VList items => negb (bool_decide (length items = 0%nat))
  | VDict items => negb (bool_decide (length items = 0%nat))
  end.

(** [v == s] for a string literal [s]: only a string with the same text
    compares equal. *)
Definition eq_str (v : value) (s : string) : bool :=
  match v with
  | VStr t => bool_decide (t = s)
  | _ => false
  end.

Abbreviation dict := (gmap string value).

(** ** Exceptions and outcomes *)

(** Instances of Python's [Exception]. [HTTPException] is the one subclass the
    handlers tell apart; [KeyError] is what a subscript of a dict raises on a
    missing key; [OtherError] stands for every other instance, with the text
    [str(e)] gives. *)
Inductive exn : Type :=
  | HTTPException (status_code : Z) (detail : value)
  | KeyError (key : string)
  | OtherError (text : string).

Definition is_HTTPException (e : exn) : bool :=
  match e with
  | HTTPException _ _ => true
  | _ => false
  end.

(** What [HTTPException(status_code=500, detail=d)] constructs. The
    constructor keeps a detail other than [None] as it is, and replaces a
    [None] detail by the phrase of the status, which for 500 is
    ["Internal Server Error"]. *)
Definition HTTPException_500 (d : value) : exn :=
  HTTPException 500
    (match d with
     | VNone => VStr "Internal Server Error"
     | _ => d
     end).

Inductive outcome (A : Type) : Type :=
  | Return (a : A)
  | Raise (e : exn).
Arguments Return {A} a.
Arguments Raise {A} e.

(** ** Observable effects *)

(** Calls that reached a collaborator, in the order they were made. *)
Inductive call : Type :=
  | CallRag (question : string)
  | CallSubmitFeedback (conversation_id : value) (feedback : Z).

(** What an f-string interpolates after its fixed prefix. *)
Inductive printable : Type :=
  | PValue (v : value)
  | PExn (e : exn).

Inductive level : Type := INFO | ERROR.

(** One line of the server log: [logging.info(f"<prefix>{<arg>}")]. *)
Record log_record : Type := LogRecord {
  levelname : level;
  prefix : string;
  arg : printable
}.

(** ** Request bodies *)

Record QuestionRequest : Type := { question : string }.
Record FeedbackRequest : Type := { feedback : Z }.

(** ** The world a handler runs in *)

(** [session] is [request.session] of the calling client, kept between the
    requests of that client by the session middleware. [ext] is whatever the
    collaborators depend on and change (the model, the database). [calls] and
    [logs] record what the handler did. *)
Record state (W : Type) : Type := State {
  session : dict;
  ext : W;
  calls : list call;
  logs : list log_record
}.
Arguments State {W} _ _ _ _.
Arguments session {W} _.
Arguments ext {W} _.
Arguments calls {W} _.
Arguments logs {W} _.

(** The parts of the deployment that [app.py] imports or reads: the process
    environment, and the two functions of the [rag] module. Either function
    may raise, and may depend on and change the external world. *)
Class Backend (W : Type) : Type := {
  environ : gmap string string;
  rag : string → W → outcome dict * W;
  submit_feedback : value → Z → W → outcome dict * W
}.

(** ** The handler monad *)

Definition M (W A : Type) : Type := state W → outcome A * state W.

Definition ret {W A} (a : A) : M W A := fun s => (Return a, s).

Definition bind {W A B} (m : M W A) (k : A → M W B) : M W B :=
  fun s =>
    match m s with
    | (Return a, s') => k a s'
    | (Raise e, s') => (Raise e, s')
    end.

Definition raise {W A} (e : exn) : M W A := fun s => (Raise e, s).

(** [try: body except HTTPException: raise except Exception as e: handler(e)]
    when [reraise_http] is set, and [try: body except Exception as e:
    handler(e)] when it is not. *)
Definition try_except {W A} (reraise_http : bool) (body : M W A)
    (handler : exn → M W A) : M W A :=
  fun s =>
    match body s with
    | (Return a, s') => (Return a, s')
    | (Raise e, s') =>
        if reraise_http && is_HTTPException e then (Raise e, s')
        else handler e s'
    end.

Declare Scope gateway_scope.
Delimit Scope gateway_scope with gateway.
Notation "x <- m ;; k" := (bind m (fun x => k))
  (at level 100, m at next level, right associativity) : gateway_scope.
Notation "m ;;; k" := (bind m (fun _ => k))
  (at level 100, right associativity) : gateway_scope.
Local Open Scope gateway_scope.

(** [d[key]] *)
Definition subscript {W} (d : dict) (key : string) : M W value :=
  match d !! key with
  | Some v => ret v
  | None => raise (KeyError key)
  end.

(** [request.session.get(key)] *)
Definition session_get {W} (key : string) : M W value :=
  fun s => (Return (default VNone (session s !! key)), s).

(** [request.session[key] = v] *)
Definition session_set {W} (key : string) (v : value) : M W unit :=
  fun s => (Return tt, State (<[key := v]> (session s)) (ext s) (calls s) (logs s)).

Definition log {W} (l : level) (p : string) (a : printable) : M W unit :=
  fun s => (Return tt, State (session s) (ext s) (calls s) (logs s ++ [LogRecord l p a])).

Section Gateway.
Context {W : Type} `{!Backend W}.

(** [os.getenv(key, fallback)] *)
Definition getenv (key fallback : string) : string :=
  default fallback (environ !! key).

(** [rag(question)] *)
Definition call_rag (q : string) : M W dict :=
  fun s =>
    let '(r, w) := rag q (ext s) in
    (r, State (session s) w (calls s ++ [CallRag q]) (logs s)).

(** [submit_feedback(conversation_id, feedback)] *)
Definition call_submit_feedback (cid : value) (fb : Z) : M W dict :=
  fun s =>
    let '(r, w) := submit_feedback cid fb (ext s) in
    (r, State (session s) w (calls s ++ [CallSubmitFeedback cid fb]) (logs s)).

(** [get_api_key]: the argument is what the dependency
    [APIKeyHeader(name="X-API-Key", auto_error=False)] delivers for the
    request, [None] when it delivers no key. *)
Definition get_api_key (api_key : option string) : M W (option string) :=
  if bool_decide (api_key = None)
     || bool_decide (api_key = Some (getenv "API_KEY" "your-api-key"))
  then ret api_key
  else raise (HTTPException 401 (VStr "Invalid API Key")).

(** The [try] block of [ask_question]. *)
Definition ask_question_body (question_request : QuestionRequest) : M W dict :=
  log INFO "Received question: " (PValue (VStr (question question_request))) ;;;
  answer_data <- call_rag (question question_request) ;;
  logged_id <- subscript answer_data "id" ;;
  log INFO "Generated answer for conversation ID: " (PValue logged_id) ;;;
  stored_id <- subscript answer_data "id" ;;
  session_set "conversation_id" stored_id ;;;
  r_id <- subscript answer_data "id" ;;
  r_answer <- subscript answer_data "answer" ;;
  r_relevance <- subscript answer_data "relevance" ;;
  r_response_time <- subscript answer_data "response_time" ;;
  r_total_tokens <- subscript answer_data "total_tokens" ;;
  r_openai_cost <- subscript answer_data "openai_cost" ;;
  ret (list_to_map
         [("conversation_id", r_id);
          ("answer", r_answer);
          ("relevance", r_relevance);
          ("response_time", r_response_time);
          ("total_tokens", r_total_tokens);
          ("estimated_cost", r_openai_cost)]).

(** [ask_question] *)
Definition ask_question (question_request : QuestionRequest) : M W dict :=
  try_except false (ask_question_body question_request)
    (fun e =>
       log ERROR "Error processing question: " (PExn e) ;;;
       raise (HTTPException 500 (VStr "Error processing your question"))).

(** The [try] block of [process_feedback]. *)
Definition process_feedback_body (feedback_request : FeedbackRequest) : M W dict :=
  conversation_id <- session_get "conversation_id" ;;
  if negb (truthy conversation_id)
  then raise (HTTPException 400 (VStr "No active conversation found"))
  else
    log INFO "Received feedback for conversation ID: " (PValue conversation_id) ;;;
    if negb (bool_decide (feedback feedback_request ∈ [-1; 1]))
    then raise (HTTPException 400 (VStr "Invalid feedback value. Must be -1 or 1"))
    else
      result <- call_submit_feedback conversation_id (feedback feedback_request) ;;
      status <- subscript result "status" ;;
      if eq_str status "success"
      then ret (list_to_map [("message", VStr "Feedback received and saved successfully")])
      else
        message <- subscript result "message" ;;
        raise (HTTPException_500 message).

(** [process_feedback] *)
Definition process_feedback (feedback_request : FeedbackRequest) : M W dict :=
  try_except true (process_feedback_body feedback_request)
    (fun e =>
       log ERROR "Error processing feedback: " (PExn e) ;;;
       raise (HTTPException 500 (VStr "Error processing your feedback"))).

(** ** The two routes *)

(** A request of one client: the key the header dependency delivers for it,
    if any, and its validated body. *)
Inductive request : Type :=
  | POST_ask (x_api_key : option string) (body : QuestionRequest)
  | POST_feedback (x_api_key : option string) (body : FeedbackRequest).

(** FastAPI resolves [Depends(get_api_key)] first and calls the handler only
    if the dependency returned. *)
Definition serve (r : request) : M W dict :=
  match r with
  | POST_ask k body => _ <- get_api_key k ;; ask_question body
  | POST_feedback k body => _ <- get_api_key k ;; process_feedback body
  end.

(** The requests of one session in order, with the outcome of each. *)
Fixpoint run (rs : list request) (s : state W)
    : list (request * outcome dict) * state W :=
  match rs with
  | [] => ([], s)
  | r :: rs' =>
      let '(o, s1) := serve r s in
      let '(h, s2) := run rs' s1 in
      ((r, o) :: h, s2)
  end.

End Gateway.

(** ** The collaborator contract and sample deployments *)

(** The keys of an answer result, as [ask_question] reads them. *)
Definition answer_keys : list string :=
  ["id"; "answer"; "relevance"; "response_time"; "total_tokens"; "openai_cost"].

Definition well_formed_answer (d : dict) : Prop :=
  ∀ key, key ∈ answer_keys → is_Some (d !! key).

(** [rag] keeps its interface: whenever it returns, the result carries the six
    fields of an answer result. *)
Definition rag_contract {W} `{!Backend W} : Prop :=
  ∀ q w d w', rag q w = (Return d, w') → well_formed_answer d.

(** The header and the handler of a request. *)
Definition x_api_key_of (r : request) : option string :=
  match r with
  | POST_ask k _ => k
  | POST_feedback k _ => k
  end.

Definition handler_of {W} `{!Backend W} (r : request) : M W dict :=
  match r with
  | POST_ask _ body => ask_question body
  | POST_feedback _ body => process_feedback body
  end.

(** A deployment whose collaborators follow a script: the external world is
    the list of outcomes still to be played, and each collaborator call plays
    the next one. *)
Definition play (w : list (outcome dict)) : outcome dict * list (outcome dict) :=
  match w with
  | o :: w' => (o, w')
  | [] => (Raise (OtherError "script exhausted"), [])
  end.

Definition scripted (env : gmap string string) : Backend (list (outcome dict)) :=
  {| environ := env;
     rag := fun _ w => play w;
     submit_feedback := fun _ _ w => play w |}.

Definition sample_answer : dict :=
  list_to_map
    [("id", VStr "c-1");
     ("answer", VStr "Plug the controller in.");
     ("relevance", VStr "RELEVANT");
     ("response_time", VFloat (S754_finite false 3 (-1)));
     ("total_tokens", VInt 120);
     ("openai_cost", VFloat (S754_finite false 1 (-10)))].

Definition saved : dict :=
  list_to_map [("status", VStr "success"); ("message", VStr "Feedback saved")].

Definition not_saved : dict :=
  list_to_map [("status", VStr "error"); ("message", VStr "X")].

(** A deployment whose [rag] always answers [sample_answer] and whose
    [submit_feedback] always reports success; the world counts the calls. *)
Definition steady : Backend nat :=
  {| environ := {[ "API_KEY" := "s3cret" ]};
     rag := fun _ n => (Return sample_answer, S n);
     submit_feedback := fun _ _ n => (Return saved, S n) |}.

(** A deployment whose [rag] answers with the question as conversation id,
    and is overloaded every other time it is called; the world counts the
    calls. *)
Definition echo : Backend nat :=
  {| environ := ∅;
     rag := fun q n =>
              if Nat.even n
              then (Return (<["id" := VStr q]> sample_answer), S n)
              else (Raise (OtherError "overloaded"), S n);
     submit_feedback := fun _ _ n => (Return saved, S n) |}.

Definition fresh {W} (w : W) : state W := State ∅ w [] [].

Definition in_conversation {W} (cid : value) (w : W) : state W :=
  State {[ "conversation_id" := cid ]} w [] [].

(** The state [process_feedback] is in once [submit_feedback] has been called
    with [cid] and [fb] and has left the external world as [w']. *)
Definition after_submit {W} (s : state W) (cid : value) (fb : Z) (w' : W) : state W :=
  State (session s) w' (calls s ++ [CallSubmitFeedback cid fb])
    (logs s ++ [LogRecord INFO "Received feedback for conversation ID: " (PValue cid)]).

(** What the session holds under [conversation_id], as [session.get] reads
    it. *)
Definition current_conversation {W} (s : state W) : value :=
  default VNone (session s !! "conversation_id").

(** The first of [keys] that [d] does not have, in the order [ask_question]
    subscripts them. *)
Definition first_missing (d : dict) (keys : list string) : option string :=
  find (fun key => match d !! key with None => true | Some _ => false end) keys.

(** An answer result that carries an id and nothing else. *)
Definition only_id : dict := {[ "id" := VStr "c-1" ]}.

(** A result that reports an error and whose message is [None]. *)
Definition not_saved_unexplained : dict :=
  list_to_map [("status", VStr "error"); ("message", VNone)].

(** ** Histories *)

(** The conversation id carried by the last successful [/ask] of a history,
    or [before] when the history has none. *)
Fixpoint last_conversation (history : list (request * outcome dict))
    (before : option value) : option value :=
  match history with
  | [] => before
  | (POST_ask _ _, Return resp) :: history' =>
      last_conversation history' (resp !! "conversation_id")
  | _ :: history' => last_conversation history' before
  end.

(** ** Startup *)

(** The [db] module: [get_db_connection()] returns a connection or [None],
    and a connection has a [close()] method. Either may raise, and may depend
    on and change the database. *)
Class Database (W C : Type) : Type := {
  get_db_connection : W → outcome (option C) * W;
  close : C → W → outcome unit * W
}.

(** What [startup_event] runs in: the database, the connections [close()] was
    called on, and the lines logged so far. *)
Record boot_state (W C : Type) : Type := BootState {
  db : W;
  close_calls : list C;
  lines : list (level * string)
}.
Arguments BootState {W C} _ _ _.
Arguments db {W C} _.
Arguments close_calls {W C} _.
Arguments lines {W C} _.

(** [startup_event] *)
Definition startup_event {W C} `{!Database W C} (b : boot_state W C)
    : outcome unit * boot_state W C :=
  match get_db_connection (db b) with
  | (Raise e, w) => (Raise e, BootState w (close_calls b) (lines b))
  | (Return None, w) =>
      (Return tt,
       BootState w (close_calls b)
         (lines b ++ [(ERROR, "Failed to connect to the database. Please check your database configuration.")]))
  | (Return (Some conn), w) =>
      match close conn w with
      | (Raise e, w') => (Raise e, BootState w' (close_calls b ++ [conn]) (lines b))
      | (Return _, w') =>
          (Return tt,
           BootState w' (close_calls b ++ [conn])
             (lines b ++ [(INFO, "Successfully connected to the database.")]))
      end
  end.

(** A database that is down ([None]), one that hands out connection [7], and
    one whose probe raises. *)
Definition db_down : Database unit nat :=
  {| get_db_connection := fun w => (Return None, w);
     close := fun _ w => (Return tt, w) |}.

Definition db_up : Database unit nat :=
  {| get_db_connection := fun w => (Return (Some 7%nat), w);
     close := fun _ w => (Return tt, w) |}.

Definition db_broken : Database unit nat :=
  {| get_db_connection := fun w => (Raise (OtherError "no driver"), w);
     close := fun _ w => (Return tt, w) |}.

(** * Properties *)

Ltac run_handler :=
  unfold ask_question, process_feedback, try_except, ask_question_body,
    process_feedback_body, bind, call_rag, call_submit_feedback, log,
    subscript, session_get, session_set, get_api_key, raise, ret;
  cbn [session ext calls logs fst snd andb orb negb is_HTTPException].

Ltac in_answer_keys :=
  unfold answer_keys;
  repeat first [apply list_elem_of_here | apply list_elem_of_further].

Ltac split_lookups :=
  repeat match goal with
         | |- context [match ?d !! ?k with _ => _ end] =>
             let E := fresh "Hkey" in destruct (d !! k) eqn:E; simpl
         end.

Section GatewayFacts.
Context {W : Type} `{!Backend W}.

Implicit Types (s : state W) (d : dict) (e : exn).

(** *** Truth values and membership *)

Lemma feedback_allowed (n : Z) :
  bool_decide (n ∈ [-1; 1]) = true ↔ n = -1 ∨ n = 1.
Proof.
  rewrite bool_decide_eq_true, !elem_of_cons, elem_of_nil. tauto.
Qed.

Lemma feedback_refused (n : Z) :
  n ≠ -1 → n ≠ 1 → bool_decide (n ∈ [-1; 1]) = false.
Proof.
  intros H1 H2. apply bool_decide_eq_false. rewrite !elem_of_cons, elem_of_nil. tauto.
Qed.

Lemma eq_str_true (v : value) (t : string) : eq_str v t = true ↔ v = VStr t.
Proof.
  destruct v; simpl; try (split; [discriminate | intros [=]]).
  rewrite bool_decide_eq_true. split; [congruence | intros [=]; done].
Qed.

Lemma eq_str_false (v : value) (t : string) : v ≠ VStr t → eq_str v t = false.
Proof.
  intros Hne. destruct (eq_str v t) eqn:E; [| done].
  apply eq_str_true in E. contradiction.
Qed.

(** *** The credential check *)

Lemma get_api_key_absent s : get_api_key None s = (Return None, s).
Proof. reflexivity. Qed.

Lemma get_api_key_match s :
  get_api_key (Some (getenv "API_KEY" "your-api-key")) s
  = (Return (Some (getenv "API_KEY" "your-api-key")), s).
Proof.
  unfold get_api_key. rewrite (bool_decide_eq_true_2 (Some _ = Some _)) by done.
  rewrite orb_true_r. reflexivity.
Qed.

Lemma get_api_key_mismatch (key : string) s :
  key ≠ getenv "API_KEY" "your-api-key" →
  get_api_key (Some key) s = (Raise (HTTPException 401 (VStr "Invalid API Key")), s).
Proof.
  intros Hne. unfold get_api_key.
  rewrite (bool_decide_eq_false_2 (Some key = None)) by done.
  rewrite (bool_decide_eq_false_2 (Some key = Some _)) by congruence.
  reflexivity.
Qed.

(** *** [ask_question], path by path *)

Lemma ask_question_rag_raises (q : QuestionRequest) s e (w' : W) :
  rag (question q) (ext s) = (Raise e, w') →
  ask_question q s
  = (Raise (HTTPException 500 (VStr "Error processing your question")),
     State (session s) w' (calls s ++ [CallRag (question q)])
       (logs s ++ [LogRecord INFO "Received question: " (PValue (VStr (question q)));
                   LogRecord ERROR "Error processing question: " (PExn e)])).
Proof. intros Hrag. run_handler. rewrite Hrag. simpl. by rewrite <- app_assoc. Qed.

Lemma ask_question_rag_returns (q : QuestionRequest) s d (w' : W)
    (v_id v_answer v_relevance v_time v_tokens v_cost : value) :
  rag (question q) (ext s) = (Return d, w') →
  d !! "id" = Some v_id →
  d !! "answer" = Some v_answer →
  d !! "relevance" = Some v_relevance →
  d !! "response_time" = Some v_time →
  d !! "total_tokens" = Some v_tokens →
  d !! "openai_cost" = Some v_cost →
  ask_question q s
  = (Return (list_to_map
               [("conversation_id", v_id);
                ("answer", v_answer);
                ("relevance", v_relevance);
                ("response_time", v_time);
                ("total_tokens", v_tokens);
                ("estimated_cost", v_cost)]),
     State (<["conversation_id" := v_id]> (session s)) w'
       (calls s ++ [CallRag (question q)])
       (logs s ++ [LogRecord INFO "Received question: " (PValue (VStr (question q)));
                   LogRecord INFO "Generated answer for conversation ID: " (PValue v_id)])).
Proof.
  intros Hrag H1 H2 H3 H4 H5 H6. run_handler.
  rewrite Hrag, H1, H2, H3, H4, H5, H6. simpl. by rewrite <- app_assoc.
Qed.

(** *** [process_feedback], path by path *)

Lemma process_feedback_absent (fbr : FeedbackRequest) s :
  session s !! "conversation_id" = None →
  process_feedback fbr s
  = (Raise (HTTPException 400 (VStr "No active conversation found")), s).
Proof. intros Hs. run_handler. rewrite Hs. reflexivity. Qed.

Lemma process_feedback_falsy (fbr : FeedbackRequest) s (v : value) :
  session s !! "conversation_id" = Some v →
  truthy v = false →
  process_feedback fbr s
  = (Raise (HTTPException 400 (VStr "No active conversation found")), s).
Proof. intros Hs Hv. run_handler. rewrite Hs. simpl. rewrite Hv. reflexivity. Qed.

Lemma process_feedback_invalid (fbr : FeedbackRequest) s (cid : value) :
  session s !! "conversation_id" = Some cid →
  truthy cid = true →
  bool_decide (feedback fbr ∈ [-1; 1]) = false →
  process_feedback fbr s
  = (Raise (HTTPException 400 (VStr "Invalid feedback value. Must be -1 or 1")),
     State (session s) (ext s) (calls s)
       (logs s ++ [LogRecord INFO "Received feedback for conversation ID: " (PValue cid)])).
Proof.
  intros Hs Hv Hfb. run_handler. rewrite Hs. simpl. rewrite Hv. simpl.
  rewrite Hfb. reflexivity.
Qed.

Lemma process_feedback_body_submit (fbr : FeedbackRequest) s (cid : value) :
  session s !! "conversation_id" = Some cid →
  truthy cid = true →
  bool_decide (feedback fbr ∈ [-1; 1]) = true →
  process_feedback_body fbr s
  = match submit_feedback cid (feedback fbr) (ext s) with
    | (Raise e, w') => (Raise e, after_submit s cid (feedback fbr) w')
    | (Return result, w') =>
        match result !! "status" with
        | None => (Raise (KeyError "status"), after_submit s cid (feedback fbr) w')
        | Some status =>
            if eq_str status "success"
            then (Return (list_to_map
                            [("message", VStr "Feedback received and saved successfully")]),
                  after_submit s cid (feedback fbr) w')
            else match result !! "message" with
                 | None => (Raise (KeyError "message"), after_submit s cid (feedback fbr) w')
                 | Some message =>
                     (Raise (HTTPException_500 message), after_submit s cid (feedback fbr) w')
                 end
        end
    end.
Proof.
  intros Hs Hv Hfb. run_handler. rewrite Hs. simpl. rewrite Hv. simpl.
  rewrite Hfb. simpl.
  destruct (submit_feedback cid (feedback fbr) (ext s)) as [[result | e] w']; [| done].
  simpl. destruct (result !! "status") as [status |]; [| done].
  simpl. destruct (eq_str status "success"); [done |].
  destruct (result !! "message"); done.
Qed.

(** The two [except] clauses of [process_feedback]. *)
Lemma process_feedback_except (fbr : FeedbackRequest) s :
  process_feedback fbr s
  = match process_feedback_body fbr s with
    | (Return body, s') => (Return body, s')
    | (Raise (HTTPException c d), s') => (Raise (HTTPException c d), s')
    | (Raise e, s') =>
        (Raise (HTTPException 500 (VStr "Error processing your feedback")),
         State (session s') (ext s') (calls s')
           (logs s' ++ [LogRecord ERROR "Error processing feedback: " (PExn e)]))
    end.
Proof.
  unfold process_feedback, try_except.
  destruct (process_feedback_body fbr s) as [[body | e] s']; [done |].
  destruct e; reflexivity.
Qed.

(** *** What [process_feedback] touches *)

Lemma session_get_current s :
  session_get "conversation_id" s = (Return (current_conversation s), s).
Proof. reflexivity. Qed.

Lemma process_feedback_cases (fbr : FeedbackRequest) s :
  (truthy (current_conversation s) && bool_decide (feedback fbr ∈ [-1; 1]) = false
   ∧ (∃ e, fst (process_feedback fbr s) = Raise e)
   ∧ session (snd (process_feedback fbr s)) = session s
   ∧ ext (snd (process_feedback fbr s)) = ext s
   ∧ calls (snd (process_feedback fbr s)) = calls s)
  ∨ (truthy (current_conversation s) && bool_decide (feedback fbr ∈ [-1; 1]) = true
     ∧ session (snd (process_feedback fbr s)) = session s
     ∧ calls (snd (process_feedback fbr s))
       = calls s ++ [CallSubmitFeedback (current_conversation s) (feedback fbr)]).
Proof.
  unfold current_conversation.
  destruct (session s !! "conversation_id") as [cid |] eqn:Hs; simpl.
  - destruct (truthy cid) eqn:Hv; simpl.
    + destruct (bool_decide (feedback fbr ∈ [-1; 1])) eqn:Hfb.
      * right. split; [done |].
        rewrite process_feedback_except.
        rewrite (process_feedback_body_submit fbr s cid Hs Hv Hfb).
        destruct (submit_feedback cid (feedback fbr) (ext s)) as [[result | e] w'].
        -- destruct (result !! "status") as [status |]; [| done].
           destruct (eq_str status "success"); [done |].
           destruct (result !! "message"); done.
        -- destruct e; done.
      * left. rewrite (process_feedback_invalid fbr s cid Hs Hv Hfb). simpl. eauto 6.
    + left. rewrite (process_feedback_falsy fbr s cid Hs Hv). simpl. eauto 6.
  - left. rewrite (process_feedback_absent fbr s Hs). simpl. eauto 6.
Qed.

Lemma process_feedback_ext (fbr : FeedbackRequest) s :
  ext (snd (process_feedback fbr s))
  = if truthy (current_conversation s) && bool_decide (feedback fbr ∈ [-1; 1])
    then snd (submit_feedback (current_conversation s) (feedback fbr) (ext s))
    else ext s.
Proof.
  unfold current_conversation.
  destruct (session s !! "conversation_id") as [cid |] eqn:Hs; simpl.
  - destruct (truthy cid) eqn:Hv; simpl.
    + destruct (bool_decide (feedback fbr ∈ [-1; 1])) eqn:Hfb.
      * rewrite process_feedback_except, (process_feedback_body_submit fbr s cid Hs Hv Hfb).
        destruct (submit_feedback cid (feedback fbr) (ext s)) as [[result | e] w']; simpl.
        -- split_lookups; try destruct (eq_str _ _); done.
        -- by destruct e.
      * by rewrite (process_feedback_invalid fbr s cid Hs Hv Hfb).
    + by rewrite (process_feedback_falsy fbr s cid Hs Hv).
  - by rewrite (process_feedback_absent fbr s Hs).
Qed.

Lemma process_feedback_session (fbr : FeedbackRequest) s :
  session (snd (process_feedback fbr s)) = session s.
Proof. destruct (process_feedback_cases fbr s) as [(_ & _ & H & _) | (_ & H & _)]; done. Qed.

Lemma get_api_key_cases (k : option string) s :
  get_api_key k s = (Return k, s)
  ∨ get_api_key k s = (Raise (HTTPException 401 (VStr "Invalid API Key")), s).
Proof. unfold get_api_key. destruct (_ || _); [left | right]; reflexivity. Qed.

Lemma serve_cases (r : request) s :
  serve r s = handler_of r s
  ∨ serve r s = (Raise (HTTPException 401 (VStr "Invalid API Key")), s).
Proof.
  destruct r as [k body | k body]; unfold serve, bind;
    destruct (get_api_key_cases k s) as [-> | ->]; auto.
Qed.

Lemma response_conversation_id (v_id v_answer v_relevance v_time v_tokens v_cost : value) :
  (list_to_map
     [("conversation_id", v_id); ("answer", v_answer); ("relevance", v_relevance);
      ("response_time", v_time); ("total_tokens", v_tokens);
      ("estimated_cost", v_cost)] : dict) !! "conversation_id" = Some v_id.
Proof. cbn [list_to_map foldr fst snd uncurry]. apply lookup_insert_eq. Qed.

(** *** Inverting a successful [ask_question] *)

Lemma ask_question_return_inv (q : QuestionRequest) s (resp : dict) (s1 : state W) :
  ask_question q s = (Return resp, s1) →
  ∃ d w' v_id v_answer v_relevance v_time v_tokens v_cost,
    rag (question q) (ext s) = (Return d, w')
    ∧ d !! "id" = Some v_id
    ∧ d !! "answer" = Some v_answer
    ∧ d !! "relevance" = Some v_relevance
    ∧ d !! "response_time" = Some v_time
    ∧ d !! "total_tokens" = Some v_tokens
    ∧ d !! "openai_cost" = Some v_cost.
Proof.
  intros Hask.
  destruct (rag (question q) (ext s)) as [[d | e] w'] eqn:Hrag.
  - revert Hask. run_handler. rewrite Hrag.
    destruct (d !! "id") as [v_id |] eqn:H1; simpl; [| discriminate].
    destruct (d !! "answer") as [v_answer |] eqn:H2; simpl; [| discriminate].
    destruct (d !! "relevance") as [v_relevance |] eqn:H3; simpl; [| discriminate].
    destruct (d !! "response_time") as [v_time |] eqn:H4; simpl; [| discriminate].
    destruct (d !! "total_tokens") as [v_tokens |] eqn:H5; simpl; [| discriminate].
    destruct (d !! "openai_cost") as [v_cost |] eqn:H6; simpl; [| discriminate].
    intros _. eauto 15.
  - rewrite (ask_question_rag_raises q s e w' Hrag) in Hask. discriminate.
Qed.

Lemma ask_question_session_unchanged_without_id (q : QuestionRequest) s d (w' : W) :
  rag (question q) (ext s) = (Return d, w') →
  d !! "id" = None →
  session (snd (ask_question q s)) = session s.
Proof. intros Hrag Hid. run_handler. rewrite Hrag, Hid. reflexivity. Qed.

Lemma ask_question_session_written (q : QuestionRequest) s d (w' : W) (v_id : value) :
  rag (question q) (ext s) = (Return d, w') →
  d !! "id" = Some v_id →
  session (snd (ask_question q s)) = <["conversation_id" := v_id]> (session s).
Proof.
  intros Hrag Hid. run_handler. rewrite Hrag, Hid. simpl.
  destruct (d !! "answer"); simpl; [| done].
  destruct (d !! "relevance"); simpl; [| done].
  destruct (d !! "response_time"); simpl; [| done].
  destruct (d !! "total_tokens"); simpl; [| done].
  destruct (d !! "openai_cost"); done.
Qed.

(** *** One request, then many *)

Lemma serve_session_step (r : request) s (o : outcome dict) (s1 : state W) :
  rag_contract →
  serve r s = (o, s1) →
  session s1 = session s
  ∨ ∃ k q resp cid,
      r = POST_ask k q ∧ o = Return resp
      ∧ resp !! "conversation_id" = Some cid
      ∧ session s1 = <["conversation_id" := cid]> (session s).
Proof.
  intros Hcontract Hserve.
  destruct (serve_cases r s) as [Hrun | Hdenied].
  2: { rewrite Hdenied in Hserve. injection Hserve as <- <-. by left. }
  rewrite Hrun in Hserve. destruct r as [k q | k fbr]; simpl in Hserve.
  - destruct (rag (question q) (ext s)) as [[d | e] w'] eqn:Hrag.
    + pose proof (Hcontract _ _ _ _ Hrag) as Hd.
      destruct (Hd "id") as [v1 H1]; [set_solver |].
      destruct (Hd "answer") as [v2 H2]; [set_solver |].
      destruct (Hd "relevance") as [v3 H3]; [set_solver |].
      destruct (Hd "response_time") as [v4 H4]; [set_solver |].
      destruct (Hd "total_tokens") as [v5 H5]; [set_solver |].
      destruct (Hd "openai_cost") as [v6 H6]; [set_solver |].
      rewrite (ask_question_rag_returns q s d w' _ _ _ _ _ _ Hrag H1 H2 H3 H4 H5 H6)
        in Hserve.
      injection Hserve as <- <-. right.
      eexists k, q, _, v1. split; [done |]. split; [done |].
      split; [apply response_conversation_id | done].
    + rewrite (ask_question_rag_raises q s e w' Hrag) in Hserve.
      injection Hserve as <- <-. by left.
  - left. pose proof (process_feedback_session fbr s) as Hs.
    rewrite Hserve in Hs. exact Hs.
Qed.

Lemma run_app (rs1 rs2 : list request) s :
  run (rs1 ++ rs2) s
  = (fst (run rs1 s) ++ fst (run rs2 (snd (run rs1 s))),
     snd (run rs2 (snd (run rs1 s)))).
Proof.
  revert s. induction rs1 as [| r rs1 IH]; intros s; simpl.
  - by destruct (run rs2 s).
  - destruct (serve r s) as [o s1]. rewrite IH.
    destruct (run rs1 s1) as [h1 s2]. simpl. by destruct (run rs2 s2).
Qed.

Lemma run_cons (r : request) (rs : list request) s :
  run (r :: rs) s
  = ((r, fst (serve r s)) :: fst (run rs (snd (serve r s))),
     snd (run rs (snd (serve r s)))).
Proof.
  simpl. destruct (serve r s) as [o s1]. simpl. by destruct (run rs s1).
Qed.

(** Where a conversation id in the session comes from: it was there before
    the request, or the request is an [/ask] that passed the key check and
    whose [rag] call returned a result with that id. *)
Lemma serve_session_source (r : request) s (cid : value) :
  session (snd (serve r s)) !! "conversation_id" = Some cid →
  session s !! "conversation_id" = Some cid
  ∨ ∃ k q d w',
      r = POST_ask k q
      ∧ get_api_key k s = (Return k, s)
      ∧ rag (question q) (ext s) = (Return d, w')
      ∧ d !! "id" = Some cid.
Proof.
  destruct r as [k q | k fbr]; unfold serve, bind;
    destruct (get_api_key_cases k s) as [Hk | Hk]; rewrite Hk; simpl; auto.
  - destruct (rag (question q) (ext s)) as [[d | e] w'] eqn:Hrag.
    + destruct (d !! "id") as [v |] eqn:Hid.
      * rewrite (ask_question_session_written q s d w' v Hrag Hid), lookup_insert_eq.
        intros [= ->]. right. by exists k, q, d, w'.
      * rewrite (ask_question_session_unchanged_without_id q s d w' Hrag Hid). auto.
    + rewrite (ask_question_rag_raises q s e w' Hrag). auto.
  - rewrite process_feedback_session. auto.
Qed.

Lemma run_session_source (rs : list request) s0 (cid : value) :
  session (snd (run rs s0)) !! "conversation_id" = Some cid →
  session s0 !! "conversation_id" = Some cid
  ∨ ∃ rs1 k q rs2 d w',
      rs = rs1 ++ POST_ask k q :: rs2
      ∧ get_api_key k (snd (run rs1 s0)) = (Return k, snd (run rs1 s0))
      ∧ rag (question q) (ext (snd (run rs1 s0))) = (Return d, w')
      ∧ d !! "id" = Some cid.
Proof.
  induction rs as [| r rs IH] using rev_ind; [by left |].
  rewrite run_app, run_cons. simpl. intros Hcid.
  destruct (serve_session_source r _ cid Hcid)
    as [Hbefore | (k & q & d & w' & -> & Hk & Hrag & Hid)].
  - destruct (IH Hbefore) as [? | (rs1 & k & q & rs2 & d & w' & -> & Hk & Hrag & Hid)];
      [by left |].
    right. exists rs1, k, q, (rs2 ++ [r]), d, w'.
    split; [by rewrite <- app_assoc |]. done.
  - right. by exists rs, k, q, [], d, w'.
Qed.

End GatewayFacts.

(** * The behaviour of the gateway *)

Section Behaviour.
Context {W : Type} `{!Backend W}.

Implicit Types (s : state W) (d : dict) (e : exn).

(** Claim C1. On either route, a request whose [X-API-Key] header is present
    and differs from the expected key (the environment's [API_KEY], or the
    literal ["your-api-key"] when it is unset) is rejected with status 401
    and detail "Invalid API Key", and nothing else happens; a request with
    no such header, or with the expected key, passes the check and is
    answered by its handler. In particular a request without the header
    always passes. *)
Theorem api_key_gate (r : request) s :
  (∀ key : string,
      x_api_key_of r = Some key →
      key ≠ getenv "API_KEY" "your-api-key" →
      serve r s = (Raise (HTTPException 401 (VStr "Invalid API Key")), s))
  ∧ (x_api_key_of r = None
     ∨ x_api_key_of r = Some (getenv "API_KEY" "your-api-key") →
     get_api_key (x_api_key_of r) s = (Return (x_api_key_of r), s)
     ∧ serve r s = handler_of r s)
  ∧ (x_api_key_of r = None → serve r s = handler_of r s)
  ∧ getenv "API_KEY" "your-api-key"
    = match environ !! "API_KEY" with
      | Some configured => configured
      | None => "your-api-key"
      end.
Proof.
  assert (Hpass : x_api_key_of r = None
                  ∨ x_api_key_of r = Some (getenv "API_KEY" "your-api-key") →
                  get_api_key (x_api_key_of r) s = (Return (x_api_key_of r), s)
                  ∧ serve r s = handler_of r s).
  { intros Hk.
    assert (Hget : get_api_key (x_api_key_of r) s = (Return (x_api_key_of r), s)).
    { destruct Hk as [-> | ->]; [apply get_api_key_absent | apply get_api_key_match]. }
    split; [exact Hget |].
    destruct r as [k body | k body]; simpl in *; unfold bind; by rewrite Hget. }
  split; [| split; [exact Hpass | split; [intros Hk; apply Hpass; by left |]]].
  - intros key Hk Hne.
    destruct r as [k body | k body]; simpl in *; subst k; unfold bind;
      by rewrite (get_api_key_mismatch key s Hne).
  - unfold getenv. by destruct (environ !! "API_KEY").
Qed.

(** Claim C2, as amended. In every state reached from the empty session by
    any sequence of requests, a [/feedback] request reaches the persistence
    collaborator (or returns 200) only if an earlier [/ask] of the session
    passed the key check, had its [rag] call return a result with an id, and
    so stored the id that is now in the session and is the one passed on;
    whenever that result carried its six fields, that [/ask] was answered 200
    with that id. When the session holds no conversation id the handler
    raises 400 "No active conversation found" at once, whatever the feedback
    value, leaving the state as it was: no validation, no collaborator
    call. *)
Theorem feedback_never_cold (rs : list request) (w : W)
    (history : list (request * outcome dict)) s :
  run rs (fresh w) = (history, s) →
  (∀ fbr : FeedbackRequest,
      session s !! "conversation_id" = None →
      process_feedback fbr s
      = (Raise (HTTPException 400 (VStr "No active conversation found")), s))
  ∧ (∀ (k : option string) (fbr : FeedbackRequest) (o : outcome dict) (s' : state W),
        serve (POST_feedback k fbr) s = (o, s') →
        calls s' ≠ calls s ∨ (∃ body, o = Return body) →
        ∃ cid : value,
          session s !! "conversation_id" = Some cid
          ∧ truthy cid = true
          ∧ calls s' = calls s ++ [CallSubmitFeedback cid (feedback fbr)]
          ∧ ∃ rs1 k0 q0 rs2 d w',
              rs = rs1 ++ POST_ask k0 q0 :: rs2
              ∧ get_api_key k0 (snd (run rs1 (fresh w)))
                = (Return k0, snd (run rs1 (fresh w)))
              ∧ rag (question q0) (ext (snd (run rs1 (fresh w)))) = (Return d, w')
              ∧ d !! "id" = Some cid
              ∧ (well_formed_answer d →
                 ∃ resp : dict,
                   (POST_ask k0 q0, Return resp) ∈ history
                   ∧ resp !! "conversation_id" = Some cid)).
Proof.
  intros Hrun. split.
  - intros fbr Hnone. by apply process_feedback_absent.
  - intros k fbr o s' Hserve Haccepted.
    destruct (serve_cases (POST_feedback k fbr) s) as [Hh | Hdenied].
    2: { rewrite Hdenied in Hserve. injection Hserve as <- <-.
         destruct Haccepted as [Hc | [body Hb]]; [done | discriminate]. }
    rewrite Hh in Hserve. simpl in Hserve.
    destruct (process_feedback_cases fbr s)
      as [(Hgate & [e He] & _ & _ & Hcalls) | (Hgate & _ & Hcalls)];
      rewrite Hserve in *; simpl in *.
    { destruct Haccepted as [Hc | [body Hb]]; [done | congruence]. }
    apply andb_true_iff in Hgate as [Hv _].
    unfold current_conversation in *.
    destruct (session s !! "conversation_id") as [cid |] eqn:Hs; [| discriminate].
    simpl in *. exists cid. split; [done |]. split; [done |]. split; [done |].
    assert (Hs' : session (snd (run rs (fresh w))) !! "conversation_id" = Some cid).
    { by rewrite Hrun. }
    destruct (run_session_source rs (fresh w) cid Hs')
      as [Hempty | (rs1 & k0 & q0 & rs2 & d & w' & -> & Hk & Hrag & Hid)].
    { simpl in Hempty. by rewrite lookup_empty in Hempty. }
    exists rs1, k0, q0, rs2, d, w'. repeat (split; [done |]).
    intros Hd.
    destruct (Hd "id") as [v1 H1]; [in_answer_keys |].
    destruct (Hd "answer") as [v2 H2]; [in_answer_keys |].
    destruct (Hd "relevance") as [v3 H3]; [in_answer_keys |].
    destruct (Hd "response_time") as [v4 H4]; [in_answer_keys |].
    destruct (Hd "total_tokens") as [v5 H5]; [in_answer_keys |].
    destruct (Hd "openai_cost") as [v6 H6]; [in_answer_keys |].
    rewrite Hid in H1. injection H1 as <-.
    eexists. split; [| apply response_conversation_id].
    assert (Hhist : history = fst (run (rs1 ++ POST_ask k0 q0 :: rs2) (fresh w))).
    { by rewrite Hrun. }
    rewrite Hhist, run_app, run_cons. simpl.
    apply elem_of_app. right. apply elem_of_cons. left. f_equal.
    unfold bind. rewrite Hk.
    by rewrite (ask_question_rag_returns q0 _ d w' _ _ _ _ _ _ Hrag Hid H2 H3 H4 H5 H6).
Qed.

(** Claim C3. When the RAG collaborator returns an answer result, [/ask]
    returns (status 200) a body with exactly the keys [conversation_id],
    [answer], [relevance], [response_time], [total_tokens] and
    [estimated_cost]; [estimated_cost] is the result's [openai_cost],
    [conversation_id] its [id], and the other four are the result's fields
    of the same name, unchanged. *)
Theorem ask_question_forwards (q : QuestionRequest) s d (w' : W)
    (v_id v_answer v_relevance v_time v_tokens v_cost : value) :
  rag (question q) (ext s) = (Return d, w') →
  d !! "id" = Some v_id →
  d !! "answer" = Some v_answer →
  d !! "relevance" = Some v_relevance →
  d !! "response_time" = Some v_time →
  d !! "total_tokens" = Some v_tokens →
  d !! "openai_cost" = Some v_cost →
  ∃ body : dict,
    fst (ask_question q s) = Return body
    ∧ body = list_to_map
               [("conversation_id", v_id); ("answer", v_answer);
                ("relevance", v_relevance); ("response_time", v_time);
                ("total_tokens", v_tokens); ("estimated_cost", v_cost)]
    ∧ dom body = list_to_set
                   ["conversation_id"; "answer"; "relevance"; "response_time";
                    "total_tokens"; "estimated_cost"]
    ∧ body !! "estimated_cost" = d !! "openai_cost"
    ∧ body !! "conversation_id" = d !! "id"
    ∧ (∀ key, key ∈ ["answer"; "relevance"; "response_time"; "total_tokens"] →
              body !! key = d !! key).
Proof.
  intros Hrag H1 H2 H3 H4 H5 H6. eexists. split.
  { by rewrite (ask_question_rag_returns q s d w' _ _ _ _ _ _ Hrag H1 H2 H3 H4 H5 H6). }
  split; [reflexivity |]. split; [by rewrite dom_list_to_map_L |].
  cbn [list_to_map foldr fst snd uncurry].
  split; [by simplify_map_eq |]. split; [by simplify_map_eq |].
  intros key Hkey. rewrite !elem_of_cons, elem_of_nil in Hkey.
  destruct Hkey as [-> | [-> | [-> | [-> | []]]]]; by simplify_map_eq.
Qed.

(** Claim C4. After a successful [/ask], the session holds under
    [conversation_id] the very value the response carries under that key;
    any later [/feedback] of the session reads that value and, exactly when
    the id is truthy and the feedback value is -1 or 1, applies the
    persistence collaborator once to that id and that value: the call is
    recorded with that id, the external world is what
    [submit_feedback(id, feedback)] left, and the answer is made from what
    it returned. *)
Theorem feedback_sees_asked_conversation (q : QuestionRequest) s (resp : dict)
    (s1 : state W) :
  ask_question q s = (Return resp, s1) →
  ∃ cid : value,
    resp !! "conversation_id" = Some cid
    ∧ session s1 !! "conversation_id" = Some cid
    ∧ ∀ (s2 : state W) (fbr : FeedbackRequest),
        session s2 = session s1 →
        session_get "conversation_id" s2 = (Return cid, s2)
        ∧ calls (snd (process_feedback fbr s2))
          = calls s2
            ++ (if truthy cid && bool_decide (feedback fbr ∈ [-1; 1])
                then [CallSubmitFeedback cid (feedback fbr)]
                else [])
        ∧ ext (snd (process_feedback fbr s2))
          = (if truthy cid && bool_decide (feedback fbr ∈ [-1; 1])
             then snd (submit_feedback cid (feedback fbr) (ext s2))
             else ext s2)
        ∧ (truthy cid && bool_decide (feedback fbr ∈ [-1; 1]) = true →
           (∀ (result : dict) (w' : W),
               submit_feedback cid (feedback fbr) (ext s2) = (Return result, w') →
               result !! "status" = Some (VStr "success") →
               process_feedback fbr s2
               = (Return (list_to_map
                            [("message", VStr "Feedback received and saved successfully")]),
                  after_submit s2 cid (feedback fbr) w'))
           ∧ (∀ (c : Z) (detail : value) (w' : W),
                 submit_feedback cid (feedback fbr) (ext s2)
                 = (Raise (HTTPException c detail), w') →
                 process_feedback fbr s2
                 = (Raise (HTTPException c detail),
                    after_submit s2 cid (feedback fbr) w'))).
Proof.
  intros Hask.
  destruct (ask_question_return_inv q s resp s1 Hask)
    as (d & w' & v1 & v2 & v3 & v4 & v5 & v6 & Hrag & H1 & H2 & H3 & H4 & H5 & H6).
  rewrite (ask_question_rag_returns q s d w' _ _ _ _ _ _ Hrag H1 H2 H3 H4 H5 H6) in Hask.
  injection Hask as <- <-. exists v1.
  split; [apply response_conversation_id |].
  split; [apply lookup_insert_eq |].
  intros s2 fbr Hsame. simpl in Hsame.
  assert (Hs2 : session s2 !! "conversation_id" = Some v1).
  { by rewrite Hsame, lookup_insert_eq. }
  assert (Hcur : current_conversation s2 = v1).
  { unfold current_conversation. by rewrite Hs2. }
  split; [by rewrite session_get_current, Hcur |].
  split.
  { destruct (process_feedback_cases fbr s2) as [(Hg & _ & _ & _ & Hc) | (Hg & _ & Hc)];
      rewrite Hcur in *; rewrite Hg, Hc; [by rewrite app_nil_r | done]. }
  split; [by rewrite process_feedback_ext, Hcur |].
  intros Hgate. apply andb_true_iff in Hgate as [Hv Hfb].
  rewrite process_feedback_except, (process_feedback_body_submit fbr s2 v1 Hs2 Hv Hfb).
  split.
  - intros result w0 -> ->. reflexivity.
  - intros c detail w0 ->. reflexivity.
Qed.

(** Claim C5. When the session holds a conversation id and the feedback
    value is an integer other than -1 and 1, [/feedback] raises 400
    "Invalid feedback value. Must be -1 or 1"; the persistence collaborator
    is not called and the external world is untouched (the handler has only
    written its one log line). *)
Theorem feedback_value_rejected (fbr : FeedbackRequest) s (cid : value) :
  session s !! "conversation_id" = Some cid →
  truthy cid = true →
  feedback fbr ≠ -1 →
  feedback fbr ≠ 1 →
  process_feedback fbr s
  = (Raise (HTTPException 400 (VStr "Invalid feedback value. Must be -1 or 1")),
     State (session s) (ext s) (calls s)
       (logs s ++ [LogRecord INFO "Received feedback for conversation ID: " (PValue cid)])).
Proof.
  intros Hs Hv Hm Hp.
  apply (process_feedback_invalid fbr s cid Hs Hv), feedback_refused; done.
Qed.

(** Claim C6, as amended. When the session and value checks pass and the
    persistence collaborator returns a result: if its [status] equals
    ["success"] the handler returns (status 200) [{"message": "Feedback
    received and saved successfully"}]; for any other status it raises 500
    with the result's own [message] as detail, unchanged, unless that message
    is [None], in which case the detail is the phrase of the status,
    ["Internal Server Error"]. *)
Theorem feedback_result_mapping (fbr : FeedbackRequest) s (cid status : value)
    (result : dict) (w' : W) :
  session s !! "conversation_id" = Some cid →
  truthy cid = true →
  feedback fbr = -1 ∨ feedback fbr = 1 →
  submit_feedback cid (feedback fbr) (ext s) = (Return result, w') →
  result !! "status" = Some status →
  (status = VStr "success" →
     fst (process_feedback fbr s)
     = Return (list_to_map [("message", VStr "Feedback received and saved successfully")]))
  ∧ (status ≠ VStr "success" →
     ∀ message : value,
       result !! "message" = Some message →
       (message ≠ VNone →
          fst (process_feedback fbr s) = Raise (HTTPException 500 message))
       ∧ (message = VNone →
            fst (process_feedback fbr s)
            = Raise (HTTPException 500 (VStr "Internal Server Error")))).
Proof.
  intros Hs Hv Hfb Hsubmit Hstatus.
  apply feedback_allowed in Hfb.
  rewrite process_feedback_except, (process_feedback_body_submit fbr s cid Hs Hv Hfb).
  rewrite Hsubmit, Hstatus. split.
  - intros ->. reflexivity.
  - intros Hne message Hmsg. rewrite (eq_str_false _ _ Hne), Hmsg. split.
    + intros Hmessage. by destruct message.
    + by intros ->.
Qed.

(** Claim C7. Whenever the RAG collaborator raises, and more generally
    whenever any step of the [try] block of [/ask] raises, the handler
    raises 500 with the fixed detail "Error processing your question"; the
    exception that was raised goes to the server log, as an ERROR line, and
    to nothing else, so [/ask] never raises anything but that fixed 500. *)
Theorem ask_question_hides_errors (q : QuestionRequest) s :
  (∀ e (w' : W),
      rag (question q) (ext s) = (Raise e, w') →
      ask_question q s
      = (Raise (HTTPException 500 (VStr "Error processing your question")),
         State (session s) w' (calls s ++ [CallRag (question q)])
           (logs s ++ [LogRecord INFO "Received question: " (PValue (VStr (question q)));
                       LogRecord ERROR "Error processing question: " (PExn e)])))
  ∧ (∀ e (s' : state W),
        ask_question_body q s = (Raise e, s') →
        ask_question q s
        = (Raise (HTTPException 500 (VStr "Error processing your question")),
           State (session s') (ext s') (calls s')
             (logs s' ++ [LogRecord ERROR "Error processing question: " (PExn e)])))
  ∧ (∀ e (s' : state W),
        ask_question q s = (Raise e, s') →
        e = HTTPException 500 (VStr "Error processing your question")).
Proof.
  split; [intros e w'; apply ask_question_rag_raises |]. split.
  - intros e s' Hbody. unfold ask_question, try_except. by rewrite Hbody.
  - intros e s'. unfold ask_question, try_except.
    destruct (ask_question_body q s) as [[body | e0] s0]; [discriminate |].
    simpl. unfold bind, log, raise. simpl. by intros [= <- _].
Qed.

(** Claim C8, as amended. In [/feedback] the three explicit failures (400
    for a missing conversation, 400 for an invalid value, and the 500 that
    [HTTPException(status_code=500, detail=message)] constructs from the
    collaborator's message) reach the caller as raised; so does every other
    [HTTPException] raised inside the [try] block, such as one the
    persistence collaborator raises. Every exception that is not an
    [HTTPException] is logged and replaced by 500 "Error processing your
    feedback". *)
Theorem feedback_propagation (fbr : FeedbackRequest) s :
  (session s !! "conversation_id" = None →
     fst (process_feedback fbr s)
     = Raise (HTTPException 400 (VStr "No active conversation found")))
  ∧ (∀ cid : value,
        session s !! "conversation_id" = Some cid →
        truthy cid = true →
        (bool_decide (feedback fbr ∈ [-1; 1]) = false →
           fst (process_feedback fbr s)
           = Raise (HTTPException 400 (VStr "Invalid feedback value. Must be -1 or 1")))
        ∧ (bool_decide (feedback fbr ∈ [-1; 1]) = true →
             (∀ (result : dict) (w' : W) (status message : value),
                 submit_feedback cid (feedback fbr) (ext s) = (Return result, w') →
                 result !! "status" = Some status →
                 status ≠ VStr "success" →
                 result !! "message" = Some message →
                 fst (process_feedback fbr s) = Raise (HTTPException_500 message))
             ∧ (∀ e (w' : W),
                   submit_feedback cid (feedback fbr) (ext s) = (Raise e, w') →
                   fst (process_feedback fbr s)
                   = if is_HTTPException e then Raise e
                     else Raise (HTTPException 500
                                   (VStr "Error processing your feedback")))))
  ∧ (∀ e (s' : state W),
        process_feedback_body fbr s = (Raise e, s') →
        process_feedback fbr s
        = if is_HTTPException e then (Raise e, s')
          else (Raise (HTTPException 500 (VStr "Error processing your feedback")),
                State (session s') (ext s') (calls s')
                  (logs s' ++ [LogRecord ERROR "Error processing feedback: " (PExn e)]))).
Proof.
  split; [intros Hs; by rewrite (process_feedback_absent fbr s Hs) |]. split.
  - intros cid Hs Hv. split.
    + intros Hfb. by rewrite (process_feedback_invalid fbr s cid Hs Hv Hfb).
    + intros Hfb.
      rewrite process_feedback_except, (process_feedback_body_submit fbr s cid Hs Hv Hfb).
      split.
      * intros result w' status message -> -> Hne ->. by rewrite (eq_str_false _ _ Hne).
      * intros e w' ->. by destruct e.
  - intros e s' Hbody. rewrite process_feedback_except, Hbody. by destruct e.
Qed.

(** Claim C9. [/ask] writes the session only after its RAG call returned: it
    then stores the returned id under [conversation_id], over any earlier
    value (and writes nothing if the result has no id). When the RAG call
    raises the session is as before the request, and so it is after
    [/feedback] in every one of its outcomes, so that feedback requests
    repeated in a session keep reading the same id. *)
Theorem session_written_only_by_ask (q : QuestionRequest)
    (fbr : FeedbackRequest) s :
  (∀ d (w' : W) (v_id : value),
      rag (question q) (ext s) = (Return d, w') →
      d !! "id" = Some v_id →
      session (snd (ask_question q s)) = <["conversation_id" := v_id]> (session s))
  ∧ (∀ e (w' : W),
        rag (question q) (ext s) = (Raise e, w') →
        session (snd (ask_question q s)) = session s)
  ∧ (session (snd (ask_question q s)) ≠ session s →
       ∃ d w', rag (question q) (ext s) = (Return d, w'))
  ∧ session (snd (process_feedback fbr s)) = session s
  ∧ (∀ fbr' : FeedbackRequest,
        fst (session_get "conversation_id" (snd (process_feedback fbr s)))
        = fst (session_get "conversation_id" s)
        ∧ session (snd (process_feedback fbr' (snd (process_feedback fbr s))))
          = session s)
  ∧ (∀ d (w' : W),
        rag (question q) (ext s) = (Return d, w') →
        d !! "id" = None →
        session (snd (ask_question q s)) = session s).
Proof.
  split; [intros d w' v_id; apply ask_question_session_written |].
  assert (Hraise : ∀ e (w' : W),
             rag (question q) (ext s) = (Raise e, w') →
             session (snd (ask_question q s)) = session s).
  { intros e w' Hrag. by rewrite (ask_question_rag_raises q s e w' Hrag). }
  split; [exact Hraise |]. split.
  - intros Hchanged.
    destruct (rag (question q) (ext s)) as [[d | e] w'] eqn:Hrag; [eauto |].
    destruct Hchanged. by apply (Hraise e w').
  - split; [apply process_feedback_session |]. split.
    + intros fbr'. split.
      * rewrite !session_get_current. simpl. unfold current_conversation.
        by rewrite process_feedback_session.
      * by rewrite !process_feedback_session.
    + intros d w'. apply ask_question_session_unchanged_without_id.
Qed.

(** Claim C10. The session check of [/feedback] tests the truth value of
    what the session holds, not its presence: with [conversation_id]
    present but falsy (the empty string, [None], 0, ...), the handler does
    exactly what it does when the key is missing: it raises 400 "No active
    conversation found" and leaves the state as it was, without calling the
    persistence collaborator. *)
Theorem falsy_conversation_is_no_conversation (fbr : FeedbackRequest) s (v : value) :
  session s !! "conversation_id" = Some v →
  truthy v = false →
  process_feedback fbr s
  = (Raise (HTTPException 400 (VStr "No active conversation found")), s)
  ∧ calls (snd (process_feedback fbr s)) = calls s
  ∧ fst (process_feedback fbr s)
    = fst (process_feedback fbr
             (State (delete "conversation_id" (session s)) (ext s) (calls s) (logs s))).
Proof.
  intros Hs Hv. rewrite (process_feedback_falsy fbr s v Hs Hv).
  split; [done |]. split; [done |].
  rewrite process_feedback_absent; [done |]. simpl. apply lookup_delete_eq.
Qed.

End Behaviour.

(** * Sample runs *)

Lemma steady_contract : @rag_contract nat steady.
Proof.
  intros q w d w' [= <- _] key Hkey. unfold answer_keys in Hkey.
  rewrite !elem_of_cons, elem_of_nil in Hkey.
  destruct Hkey as [-> | [-> | [-> | [-> | [-> | [-> | []]]]]]]; by eexists.
Qed.

(** The scenario of the specification: a question without any key, then
    feedback -1 in the same session. *)
Example ask_then_feedback :
  map snd (fst (@run nat steady
                  [POST_ask None {| question := "What is X?" |};
                   POST_feedback None {| feedback := -1 |}] (fresh 0%nat)))
  = [Return (list_to_map
               [("conversation_id", VStr "c-1");
                ("answer", VStr "Plug the controller in.");
                ("relevance", VStr "RELEVANT");
                ("response_time", VFloat (S754_finite false 3 (-1)));
                ("total_tokens", VInt 120);
                ("estimated_cost", VFloat (S754_finite false 1 (-10)))]);
     Return (list_to_map [("message", VStr "Feedback received and saved successfully")])].
Proof. vm_compute. reflexivity. Qed.

(** With [API_KEY] set to ["s3cret"]: a wrong key is turned away on either
    route before anything happens, no key at all is let through. *)
Lemma api_key_gate_witness :
  @serve nat steady (POST_feedback (Some "guess") {| feedback := 1 |}) (fresh 0%nat)
  = (Raise (HTTPException 401 (VStr "Invalid API Key")), fresh 0%nat)
  ∧ @serve nat steady (POST_ask None {| question := "q" |}) (fresh 0%nat)
    = @ask_question nat steady {| question := "q" |} (fresh 0%nat)
  ∧ @serve nat steady (POST_ask (Some "s3cret") {| question := "q" |}) (fresh 0%nat)
    = @ask_question nat steady {| question := "q" |} (fresh 0%nat).
Proof.
  split; [| split].
  - apply (proj1 (@api_key_gate nat steady
                    (POST_feedback (Some "guess") {| feedback := 1 |}) (fresh 0%nat))
             "guess"); [reflexivity | by vm_compute].
  - apply (proj1 (proj2 (proj2 (@api_key_gate nat steady
                    (POST_ask None {| question := "q" |}) (fresh 0%nat))))).
    reflexivity.
  - apply (proj1 (proj2 (@api_key_gate nat steady
                    (POST_ask (Some "s3cret") {| question := "q" |}) (fresh 0%nat)))).
    right. reflexivity.
Defined.

(** The only [/ask] of the session is answered 500, because the result of
    [rag] carries an id and nothing else; the id is in the session all the
    same, and the feedback that follows is accepted and saved. *)
Lemma feedback_accepted_after_failed_ask :
  fst (@run _ (scripted ∅) [POST_ask None {| question := "q" |}]
         (fresh [Return only_id; Return saved]))
  = [(POST_ask None {| question := "q" |},
      Raise (HTTPException 500 (VStr "Error processing your question")))]
  ∧ fst (@serve _ (scripted ∅) (POST_feedback None {| feedback := 1 |})
           (snd (@run _ (scripted ∅) [POST_ask None {| question := "q" |}]
                   (fresh [Return only_id; Return saved]))))
    = Return (list_to_map [("message", VStr "Feedback received and saved successfully")])
  ∧ calls (snd (@serve _ (scripted ∅) (POST_feedback None {| feedback := 1 |})
                  (snd (@run _ (scripted ∅) [POST_ask None {| question := "q" |}]
                          (fresh [Return only_id; Return saved])))))
    = [CallRag "q"; CallSubmitFeedback (VStr "c-1") 1].
Proof. split; [by vm_compute |]. split; by vm_compute. Qed.

(** A session that first sends feedback, then asks, then sends feedback
    again: the first feedback is refused cold, the second is passed on with
    the id the question was answered with. *)
Lemma feedback_never_cold_witness :
  @process_feedback nat steady {| feedback := 7 |} (fresh 0%nat)
  = (Raise (HTTPException 400 (VStr "No active conversation found")), fresh 0%nat)
  ∧ ∃ cid : value,
      session (snd (@run nat steady
                      [POST_feedback None {| feedback := 1 |};
                       POST_ask None {| question := "q" |}] (fresh 0%nat)))
        !! "conversation_id" = Some cid
      ∧ truthy cid = true
      ∧ calls (snd (@serve nat steady (POST_feedback None {| feedback := -1 |})
                      (snd (@run nat steady
                              [POST_feedback None {| feedback := 1 |};
                               POST_ask None {| question := "q" |}] (fresh 0%nat)))))
        = [CallRag "q"; CallSubmitFeedback cid (-1)]
      ∧ ∃ k0 q0 resp,
          (POST_ask k0 q0, Return resp)
            ∈ fst (@run nat steady
                     [POST_feedback None {| feedback := 1 |};
                      POST_ask None {| question := "q" |}] (fresh 0%nat))
          ∧ resp !! "conversation_id" = Some cid.
Proof.
  split.
  - apply (proj1 (@feedback_never_cold nat steady [] 0%nat [] (fresh 0%nat) eq_refl)).
    reflexivity.
  - pose (rs := [POST_feedback None {| feedback := 1 |};
                 POST_ask None {| question := "q" |}]).
    destruct (proj2 (@feedback_never_cold nat steady rs 0%nat
                       (fst (@run nat steady rs (fresh 0%nat)))
                       (snd (@run nat steady rs (fresh 0%nat)))
                       eq_refl)
                None {| feedback := -1 |}
                (fst (@serve nat steady (POST_feedback None {| feedback := -1 |})
                        (snd (@run nat steady rs (fresh 0%nat)))))
                (snd (@serve nat steady (POST_feedback None {| feedback := -1 |})
                        (snd (@run nat steady rs (fresh 0%nat)))))
                eq_refl)
      as (cid & Hcid & Hv & Hcalls & rs1 & k0 & q0 & rs2 & d & w' & _ & _ & Hrag & _ & Hwf).
    + right. eexists. reflexivity.
    + exists cid. split; [exact Hcid |]. split; [exact Hv |]. split; [exact Hcalls |].
      destruct (Hwf (steady_contract _ _ _ _ Hrag)) as (resp & Hin & Hresp).
      exists k0, q0, resp. split; [exact Hin | exact Hresp].
Defined.

(** The sample answer, forwarded. *)
Lemma ask_question_forwards_witness :
  ∃ body : dict,
    fst (@ask_question nat steady {| question := "q" |} (fresh 0%nat)) = Return body
    ∧ body !! "estimated_cost" = Some (VFloat (S754_finite false 1 (-10)))
    ∧ body !! "conversation_id" = Some (VStr "c-1")
    ∧ body !! "openai_cost" = None.
Proof.
  destruct (@ask_question_forwards nat steady {| question := "q" |} (fresh 0%nat)
              sample_answer 1%nat _ _ _ _ _ _
              eq_refl eq_refl eq_refl eq_refl eq_refl eq_refl eq_refl)
    as (body & Hret & Hbody & _ & Hcost & Hid & _).
  exists body. split; [exact Hret |]. split; [exact Hcost |]. split; [exact Hid |].
  rewrite Hbody. reflexivity.
Defined.

(** A question, then feedback: the id that was answered is the id that is
    saved against. *)
Lemma feedback_sees_asked_conversation_witness :
  calls (snd (@process_feedback nat steady {| feedback := 1 |}
                (snd (@ask_question nat steady {| question := "q" |} (fresh 0%nat)))))
  = [CallRag "q"; CallSubmitFeedback (VStr "c-1") 1].
Proof.
  destruct (@feedback_sees_asked_conversation nat steady {| question := "q" |}
              (fresh 0%nat)
              (list_to_map
                 [("conversation_id", VStr "c-1");
                  ("answer", VStr "Plug the controller in.");
                  ("relevance", VStr "RELEVANT");
                  ("response_time", VFloat (S754_finite false 3 (-1)));
                  ("total_tokens", VInt 120);
                  ("estimated_cost", VFloat (S754_finite false 1 (-10)))])
              (snd (@ask_question nat steady {| question := "q" |} (fresh 0%nat)))
              eq_refl)
    as (cid & Hresp & _ & Hlater).
  vm_compute in Hresp. injection Hresp as <-.
  exact (proj1 (proj2 (Hlater _ {| feedback := 1 |} eq_refl))).
Defined.

(** 0, 2 and -5 are refused, and nothing is saved. *)
Lemma feedback_value_rejected_witness :
  fst (@process_feedback nat steady {| feedback := 0 |}
         (in_conversation (VStr "c-1") 0%nat))
  = Raise (HTTPException 400 (VStr "Invalid feedback value. Must be -1 or 1"))
  ∧ fst (@process_feedback nat steady {| feedback := 2 |}
           (in_conversation (VStr "c-1") 0%nat))
    = Raise (HTTPException 400 (VStr "Invalid feedback value. Must be -1 or 1"))
  ∧ @process_feedback nat steady {| feedback := -5 |}
      (in_conversation (VStr "c-1") 0%nat)
    = (Raise (HTTPException 400 (VStr "Invalid feedback value. Must be -1 or 1")),
       State {[ "conversation_id" := VStr "c-1" ]} 0%nat []
         [LogRecord INFO "Received feedback for conversation ID: " (PValue (VStr "c-1"))]).
Proof.
  split; [| split].
  - rewrite (@feedback_value_rejected nat steady {| feedback := 0 |}
               (in_conversation (VStr "c-1") 0%nat) (VStr "c-1"));
      [reflexivity | reflexivity | reflexivity | by vm_compute | by vm_compute].
  - rewrite (@feedback_value_rejected nat steady {| feedback := 2 |}
               (in_conversation (VStr "c-1") 0%nat) (VStr "c-1"));
      [reflexivity | reflexivity | reflexivity | by vm_compute | by vm_compute].
  - apply (@feedback_value_rejected nat steady {| feedback := -5 |}
             (in_conversation (VStr "c-1") 0%nat) (VStr "c-1"));
      [reflexivity | reflexivity | by vm_compute | by vm_compute].
Defined.

(** The persistence collaborator reports an error and gives [None] as its
    message: the detail the caller receives is not that message but the
    phrase of the status. *)
Lemma feedback_none_message_not_verbatim :
  @submit_feedback _ (scripted ∅) (VStr "c-1") 1 [Return not_saved_unexplained]
  = (Return not_saved_unexplained, [])
  ∧ not_saved_unexplained !! "status" = Some (VStr "error")
  ∧ not_saved_unexplained !! "message" = Some VNone
  ∧ fst (@process_feedback _ (scripted ∅) {| feedback := 1 |}
           (in_conversation (VStr "c-1") [Return not_saved_unexplained]))
    = Raise (HTTPException 500 (VStr "Internal Server Error"))
  ∧ fst (@process_feedback _ (scripted ∅) {| feedback := 1 |}
           (in_conversation (VStr "c-1") [Return not_saved_unexplained]))
    ≠ Raise (HTTPException 500 VNone).
Proof.
  split; [reflexivity |]. split; [reflexivity |]. split; [reflexivity |].
  split; [by vm_compute |]. vm_compute. discriminate.
Qed.

(** A collaborator that reports success, one that reports an error with a
    message, and one that reports an error without. *)
Lemma feedback_result_mapping_witness :
  fst (@process_feedback _ (scripted ∅) {| feedback := 1 |}
         (in_conversation (VStr "c-1") [Return saved]))
  = Return (list_to_map [("message", VStr "Feedback received and saved successfully")])
  ∧ fst (@process_feedback _ (scripted ∅) {| feedback := -1 |}
           (in_conversation (VStr "c-1") [Return not_saved]))
    = Raise (HTTPException 500 (VStr "X"))
  ∧ fst (@process_feedback _ (scripted ∅) {| feedback := -1 |}
           (in_conversation (VStr "c-1") [Return not_saved_unexplained]))
    = Raise (HTTPException 500 (VStr "Internal Server Error")).
Proof.
  split; [| split].
  - apply (proj1 (@feedback_result_mapping _ (scripted ∅) {| feedback := 1 |}
                    (in_conversation (VStr "c-1") [Return saved])
                    (VStr "c-1") (VStr "success") saved []
                    eq_refl eq_refl (or_intror eq_refl) eq_refl eq_refl)).
    reflexivity.
  - apply (proj1 (proj2 (@feedback_result_mapping _ (scripted ∅) {| feedback := -1 |}
                           (in_conversation (VStr "c-1") [Return not_saved])
                           (VStr "c-1") (VStr "error") not_saved []
                           eq_refl eq_refl (or_introl eq_refl) eq_refl eq_refl)
                    ltac:(discriminate) (VStr "X") eq_refl));
      discriminate.
  - apply (proj2 (proj2 (@feedback_result_mapping _ (scripted ∅) {| feedback := -1 |}
                           (in_conversation (VStr "c-1") [Return not_saved_unexplained])
                           (VStr "c-1") (VStr "error") not_saved_unexplained []
                           eq_refl eq_refl (or_introl eq_refl) eq_refl eq_refl)
                    ltac:(discriminate) VNone eq_refl));
      reflexivity.
Defined.

(** A collaborator that times out, and one that raises an [HTTPException] of
    its own: the caller sees the same fixed 500 both times. *)
Lemma ask_question_hides_errors_witness :
  fst (@ask_question _ (scripted ∅) {| question := "q" |}
         (fresh [Raise (OtherError "connection timed out")]))
  = Raise (HTTPException 500 (VStr "Error processing your question"))
  ∧ logs (snd (@ask_question _ (scripted ∅) {| question := "q" |}
                 (fresh [Raise (OtherError "connection timed out")])))
    = [LogRecord INFO "Received question: " (PValue (VStr "q"));
       LogRecord ERROR "Error processing question: "
         (PExn (OtherError "connection timed out"))]
  ∧ fst (@ask_question _ (scripted ∅) {| question := "q" |}
           (fresh [Raise (HTTPException 404 (VStr "no such model"))]))
    = Raise (HTTPException 500 (VStr "Error processing your question"))
  ∧ fst (@ask_question _ (scripted ∅) {| question := "q" |}
           (fresh [Return (delete "answer" sample_answer)]))
    = Raise (HTTPException 500 (VStr "Error processing your question")).
Proof.
  split; [| split; [| split]].
  - by rewrite (proj1 (@ask_question_hides_errors _ (scripted ∅) {| question := "q" |}
                         (fresh [Raise (OtherError "connection timed out")]))
                  (OtherError "connection timed out") [] eq_refl).
  - by rewrite (proj1 (@ask_question_hides_errors _ (scripted ∅) {| question := "q" |}
                         (fresh [Raise (OtherError "connection timed out")]))
                  (OtherError "connection timed out") [] eq_refl).
  - by rewrite (proj1 (@ask_question_hides_errors _ (scripted ∅) {| question := "q" |}
                         (fresh [Raise (HTTPException 404 (VStr "no such model"))]))
                  (HTTPException 404 (VStr "no such model")) [] eq_refl).
  - rewrite (proj1 (proj2 (@ask_question_hides_errors _ (scripted ∅)
                             {| question := "q" |}
                             (fresh [Return (delete "answer" sample_answer)])))
               (KeyError "answer")
               (snd (@ask_question_body _ (scripted ∅) {| question := "q" |}
                       (fresh [Return (delete "answer" sample_answer)]))));
      [reflexivity | by vm_compute].
Defined.

(** The persistence collaborator raises an [HTTPException] of its own, 503
    "db down": it is none of the handler's three explicit failures, and yet
    it is not replaced by the generic 500; the caller receives the 503. *)
Lemma feedback_collaborator_http_error_not_generic :
  @submit_feedback _ (scripted ∅) (VStr "c-1") 1
    [Raise (HTTPException 503 (VStr "db down"))]
  = (Raise (HTTPException 503 (VStr "db down")), [])
  ∧ fst (@process_feedback _ (scripted ∅) {| feedback := 1 |}
           (in_conversation (VStr "c-1") [Raise (HTTPException 503 (VStr "db down"))]))
    = Raise (HTTPException 503 (VStr "db down"))
  ∧ fst (@process_feedback _ (scripted ∅) {| feedback := 1 |}
           (in_conversation (VStr "c-1") [Raise (HTTPException 503 (VStr "db down"))]))
    ≠ Raise (HTTPException 500 (VStr "Error processing your feedback")).
Proof.
  split; [reflexivity |]. split; [by vm_compute |].
  vm_compute. discriminate.
Qed.

(** The failures of [/feedback] one by one: no conversation, a bad value, a
    reported error, a collaborator that raises an ordinary exception, and one
    that raises an [HTTPException]. *)
Lemma feedback_propagation_witness :
  fst (@process_feedback _ (scripted ∅) {| feedback := 1 |} (fresh []))
  = Raise (HTTPException 400 (VStr "No active conversation found"))
  ∧ fst (@process_feedback _ (scripted ∅) {| feedback := 3 |}
           (in_conversation (VStr "c-1") []))
    = Raise (HTTPException 400 (VStr "Invalid feedback value. Must be -1 or 1"))
  ∧ fst (@process_feedback _ (scripted ∅) {| feedback := 1 |}
           (in_conversation (VStr "c-1") [Return not_saved]))
    = Raise (HTTPException 500 (VStr "X"))
  ∧ fst (@process_feedback _ (scripted ∅) {| feedback := 1 |}
           (in_conversation (VStr "c-1") [Raise (OtherError "connection refused")]))
    = Raise (HTTPException 500 (VStr "Error processing your feedback"))
  ∧ fst (@process_feedback _ (scripted ∅) {| feedback := 1 |}
           (in_conversation (VStr "c-1") [Raise (HTTPException 503 (VStr "db down"))]))
    = Raise (HTTPException 503 (VStr "db down")).
Proof.
  split; [| split; [| split; [| split]]].
  - apply (proj1 (@feedback_propagation _ (scripted ∅) {| feedback := 1 |} (fresh []))).
    reflexivity.
  - apply (proj1 (proj1 (proj2 (@feedback_propagation _ (scripted ∅) {| feedback := 3 |}
                                  (in_conversation (VStr "c-1") [])))
                    (VStr "c-1") eq_refl eq_refl)).
    reflexivity.
  - apply (proj1 (proj2 (proj1 (proj2 (@feedback_propagation _ (scripted ∅)
                                         {| feedback := 1 |}
                                         (in_conversation (VStr "c-1") [Return not_saved])))
                           (VStr "c-1") eq_refl eq_refl) eq_refl)
             not_saved [] (VStr "error") (VStr "X"));
      [reflexivity | reflexivity | discriminate | reflexivity].
  - apply (proj2 (proj2 (proj1 (proj2 (@feedback_propagation _ (scripted ∅)
                                         {| feedback := 1 |}
                                         (in_conversation (VStr "c-1")
                                            [Raise (OtherError "connection refused")])))
                           (VStr "c-1") eq_refl eq_refl) eq_refl)
             (OtherError "connection refused") []).
    reflexivity.
  - apply (proj2 (proj2 (proj1 (proj2 (@feedback_propagation _ (scripted ∅)
                                         {| feedback := 1 |}
                                         (in_conversation (VStr "c-1")
                                            [Raise (HTTPException 503 (VStr "db down"))])))
                           (VStr "c-1") eq_refl eq_refl) eq_refl)
             (HTTPException 503 (VStr "db down")) []).
    reflexivity.
Defined.

(** A second question replaces the id of the first; a question that fails
    leaves it; feedback leaves it. *)
Lemma session_written_only_by_ask_witness :
  session (snd (@ask_question nat steady {| question := "q" |}
                  (in_conversation (VStr "c-0") 0%nat)))
  = {[ "conversation_id" := VStr "c-1" ]}
  ∧ session (snd (@ask_question _ (scripted ∅) {| question := "q" |}
                    (in_conversation (VStr "c-0") [Raise (OtherError "connection timed out")])))
    = {[ "conversation_id" := VStr "c-0" ]}
  ∧ session (snd (@process_feedback nat steady {| feedback := 1 |}
                    (in_conversation (VStr "c-0") 0%nat)))
    = {[ "conversation_id" := VStr "c-0" ]}.
Proof.
  split; [| split].
  - rewrite (proj1 (@session_written_only_by_ask nat steady {| question := "q" |}
                      {| feedback := 1 |} (in_conversation (VStr "c-0") 0%nat))
               sample_answer 1%nat (VStr "c-1") eq_refl eq_refl).
    reflexivity.
  - apply (proj1 (proj2 (@session_written_only_by_ask _ (scripted ∅) {| question := "q" |}
                           {| feedback := 1 |}
                           (in_conversation (VStr "c-0")
                              [Raise (OtherError "connection timed out")])))
             (OtherError "connection timed out") []).
    reflexivity.
  - apply (proj1 (proj2 (proj2 (proj2 (@session_written_only_by_ask nat steady
                                         {| question := "q" |} {| feedback := 1 |}
                                         (in_conversation (VStr "c-0") 0%nat)))))).
Defined.

(** An empty string, [None] and [0] under [conversation_id] are no
    conversation. *)
Lemma falsy_conversation_is_no_conversation_witness :
  @process_feedback nat steady {| feedback := 1 |} (in_conversation (VStr "") 0%nat)
  = (Raise (HTTPException 400 (VStr "No active conversation found")),
     in_conversation (VStr "") 0%nat)
  ∧ @process_feedback nat steady {| feedback := 1 |} (in_conversation VNone 0%nat)
    = (Raise (HTTPException 400 (VStr "No active conversation found")),
       in_conversation VNone 0%nat)
  ∧ @process_feedback nat steady {| feedback := 1 |} (in_conversation (VInt 0) 0%nat)
    = (Raise (HTTPException 400 (VStr "No active conversation found")),
       in_conversation (VInt 0) 0%nat).
Proof.
  split; [| split].
  - apply (proj1 (@falsy_conversation_is_no_conversation nat steady {| feedback := 1 |}
                    (in_conversation (VStr "") 0%nat) (VStr "") eq_refl eq_refl)).
  - apply (proj1 (@falsy_conversation_is_no_conversation nat steady {| feedback := 1 |}
                    (in_conversation VNone 0%nat) VNone eq_refl eq_refl)).
  - apply (proj1 (@falsy_conversation_is_no_conversation nat steady {| feedback := 1 |}
                    (in_conversation (VInt 0) 0%nat) (VInt 0) eq_refl eq_refl)).
Defined.

(** * Further facts about the handlers *)

Section HandlerFacts.
Context {W : Type} `{!Backend W}.

Implicit Types (s : state W) (d : dict) (e : exn).

Lemma ask_question_raise_inv (q : QuestionRequest) s e (s' : state W) :
  ask_question q s = (Raise e, s') →
  e = HTTPException 500 (VStr "Error processing your question").
Proof.
  unfold ask_question, try_except.
  destruct (ask_question_body q s) as [[body | e0] s0]; [discriminate |].
  simpl. unfold bind, log, raise. simpl. by intros [= <- _].
Qed.

Lemma ask_question_effects (q : QuestionRequest) s :
  calls (snd (ask_question q s)) = calls s ++ [CallRag (question q)]
  ∧ ext (snd (ask_question q s)) = snd (rag (question q) (ext s))
  ∧ ∃ rest,
      logs (snd (ask_question q s))
      = logs s ++ LogRecord INFO "Received question: " (PValue (VStr (question q))) :: rest.
Proof.
  run_handler.
  destruct (rag (question q) (ext s)) as [[d | e] w']; simpl; split_lookups;
    (split; [done |]; split; [done |]);
    rewrite <- ?app_assoc; simpl; eauto.
Qed.

Lemma process_feedback_logs (fbr : FeedbackRequest) s :
  ∃ rest, logs (snd (process_feedback fbr s)) = logs s ++ rest.
Proof.
  destruct (session s !! "conversation_id") as [cid |] eqn:Hs.
  - destruct (truthy cid) eqn:Hv.
    + destruct (bool_decide (feedback fbr ∈ [-1; 1])) eqn:Hfb.
      * rewrite process_feedback_except, (process_feedback_body_submit fbr s cid Hs Hv Hfb).
        destruct (submit_feedback cid (feedback fbr) (ext s)) as [[result | e] w']; simpl.
        -- split_lookups; try destruct (eq_str _ _); simpl;
             rewrite <- ?app_assoc; eauto.
        -- destruct e; simpl; rewrite <- ?app_assoc; eauto.
      * rewrite (process_feedback_invalid fbr s cid Hs Hv Hfb). simpl. eauto.
    + rewrite (process_feedback_falsy fbr s cid Hs Hv). exists []. by rewrite app_nil_r.
  - rewrite (process_feedback_absent fbr s Hs). exists []. by rewrite app_nil_r.
Qed.

(** Whatever the collaborators do, a request either leaves the session as it
    was or sets [conversation_id]. *)
Lemma serve_session_shape (r : request) s :
  session (snd (serve r s)) = session s
  ∨ ∃ v : value, session (snd (serve r s)) = <["conversation_id" := v]> (session s).
Proof.
  destruct (serve_cases r s) as [-> | ->]; [| by left].
  destruct r as [k q | k fbr]; simpl.
  - destruct (rag (question q) (ext s)) as [[d | e] w'] eqn:Hrag.
    + destruct (d !! "id") as [v |] eqn:Hid.
      * right. exists v. by apply (ask_question_session_written q s d w').
      * left. by apply (ask_question_session_unchanged_without_id q s d w').
    + left. by rewrite (ask_question_rag_raises q s e w' Hrag).
  - left. apply process_feedback_session.
Qed.

(** Under the contract of [rag], the session after a request is determined by
    the request and its outcome. *)
Lemma serve_session_exact (r : request) s (o : outcome dict) (s1 : state W) :
  rag_contract →
  serve r s = (o, s1) →
  session s1 !! "conversation_id"
  = last_conversation [(r, o)] (session s !! "conversation_id").
Proof.
  intros Hcontract Hserve.
  destruct (serve_session_step r s o s1 Hcontract Hserve)
    as [Hsame | (k & q & resp & cid & -> & -> & Hresp & Hset)].
  - rewrite Hsame. destruct r as [k q | k fbr]; simpl; [| done].
    destruct o as [resp | e]; [| done].
    destruct (serve_cases (POST_ask k q) s) as [Hh | Hdenied];
      [| rewrite Hdenied in Hserve; discriminate].
    rewrite Hh in Hserve. simpl in Hserve.
    destruct (ask_question_return_inv q s resp s1 Hserve)
      as (d & w' & v1 & v2 & v3 & v4 & v5 & v6 & Hrag & H1 & H2 & H3 & H4 & H5 & H6).
    rewrite (ask_question_rag_returns q s d w' _ _ _ _ _ _ Hrag H1 H2 H3 H4 H5 H6)
      in Hserve.
    injection Hserve as <- <-. simpl in Hsame.
    rewrite lookup_insert_eq, <- Hsame. by rewrite lookup_insert_eq.
  - simpl. by rewrite Hset, lookup_insert_eq.
Qed.

End HandlerFacts.

Section Composition.
Context {W : Type} `{!Backend W}.

Implicit Types (s : state W) (d : dict) (e : exn).

Lemma serve_rejected (r : request) s (key : string) :
  x_api_key_of r = Some key →
  key ≠ getenv "API_KEY" "your-api-key" →
  serve r s = (Raise (HTTPException 401 (VStr "Invalid API Key")), s).
Proof.
  intros Hk Hne. destruct r as [k body | k body]; simpl in *; subst k; unfold bind;
    by rewrite (get_api_key_mismatch key s Hne).
Qed.

Lemma serve_effects (r : request) s :
  ∃ cs ls,
    calls (snd (serve r s)) = calls s ++ cs
    ∧ (length cs ≤ 1)%nat
    ∧ logs (snd (serve r s)) = logs s ++ ls.
Proof.
  destruct (serve_cases r s) as [-> | ->].
  - destruct r as [k q | k fbr]; simpl.
    + destruct (ask_question_effects q s) as (Hc & _ & rest & Hl).
      exists [CallRag (question q)]. eexists. by rewrite Hc, Hl.
    + destruct (process_feedback_logs fbr s) as [rest Hl].
      destruct (process_feedback_cases fbr s) as [(_ & _ & _ & _ & Hc) | (_ & _ & Hc)].
      * exists [], rest. rewrite Hc, Hl, app_nil_r. simpl. auto.
      * eexists [_], rest. by rewrite Hc, Hl.
  - exists [], []. simpl. rewrite !app_nil_r. auto.
Qed.

Lemma last_conversation_cons (r : request) (o : outcome dict)
    (history : list (request * outcome dict)) (before : option value) :
  last_conversation ((r, o) :: history) before
  = last_conversation history (last_conversation [(r, o)] before).
Proof. destruct r, o; reflexivity. Qed.

(** Property X1. Within Python's [Exception] hierarchy, which is what the
    handlers' [except] clauses catch and what [exn] models, nothing but an
    [HTTPException] is raised by a route: whenever a collaborator raises an
    instance of [Exception] or returns a dict, a key check or handler that
    does not return raises an [HTTPException]; on [/ask] it is the 401 of
    the key check or the fixed 500. *)
Theorem only_http_errors_escape (r : request) s e (s' : state W) :
  serve r s = (Raise e, s') →
  is_HTTPException e = true
  ∧ (∀ k q, r = POST_ask k q →
       e = HTTPException 401 (VStr "Invalid API Key")
       ∨ e = HTTPException 500 (VStr "Error processing your question")).
Proof.
  intros Hserve. destruct (serve_cases r s) as [Hh | Hdenied].
  - rewrite Hh in Hserve. destruct r as [k q | k fbr]; simpl in Hserve.
    + rewrite (ask_question_raise_inv q s e s' Hserve). split; [done |]. auto.
    + split; [| intros ? ? [=]].
      rewrite process_feedback_except in Hserve.
      destruct (process_feedback_body fbr s) as [[body | e0] s0]; [discriminate |].
      destruct e0; by injection Hserve as <- _.
  - rewrite Hdenied in Hserve. injection Hserve as <- _. split; [done |]. auto.
Qed.

(** Property X2. [/ask] calls [rag] exactly once, with the question, in every
    outcome, and never calls [submit_feedback]; [/feedback] never calls
    [rag], and calls [submit_feedback] once when the session id is truthy and
    the value is -1 or 1 and not at all otherwise. The external world moves
    only through that one call. *)
Theorem one_collaborator_call (q : QuestionRequest) (fbr : FeedbackRequest) s :
  calls (snd (ask_question q s)) = calls s ++ [CallRag (question q)]
  ∧ ext (snd (ask_question q s)) = snd (rag (question q) (ext s))
  ∧ calls (snd (process_feedback fbr s))
    = calls s
      ++ (if truthy (current_conversation s) && bool_decide (feedback fbr ∈ [-1; 1])
          then [CallSubmitFeedback (current_conversation s) (feedback fbr)]
          else [])
  ∧ ext (snd (process_feedback fbr s))
    = if truthy (current_conversation s) && bool_decide (feedback fbr ∈ [-1; 1])
      then snd (submit_feedback (current_conversation s) (feedback fbr) (ext s))
      else ext s.
Proof.
  destruct (ask_question_effects q s) as (Hc & He & _).
  split; [exact Hc |]. split; [exact He |]. split; [| apply process_feedback_ext].
  destruct (process_feedback_cases fbr s) as [(Hg & _ & _ & _ & Hcalls) | (Hg & _ & Hcalls)];
    rewrite Hg, Hcalls; [by rewrite app_nil_r | done].
Qed.

(** Property X3. Over any sequence of requests the history has one entry per
    request, in order; the list of collaborator calls and the log only grow
    at the end, and there is at most one collaborator call per request. *)
Theorem run_append_only (rs : list request) s :
  map fst (fst (run rs s)) = rs
  ∧ ∃ cs ls,
      calls (snd (run rs s)) = calls s ++ cs
      ∧ (length cs ≤ length rs)%nat
      ∧ logs (snd (run rs s)) = logs s ++ ls.
Proof.
  revert s. induction rs as [| r rs IH]; intros s.
  - split; [done |]. exists [], []. simpl. rewrite !app_nil_r. auto.
  - rewrite run_cons. simpl.
    destruct (IH (snd (serve r s))) as (Hmap & cs & ls & Hc & Hlen & Hl).
    destruct (serve_effects r s) as (cs0 & ls0 & Hc0 & Hlen0 & Hl0).
    split; [by rewrite Hmap |].
    exists (cs0 ++ cs), (ls0 ++ ls).
    rewrite Hc, Hc0, Hl, Hl0, !app_assoc, length_app. repeat split; lia.
Qed.

(** Property X4. The gateway writes no session key but [conversation_id]:
    over any sequence of requests every other key keeps its value, and the
    keys of the session are those it started with and at most that one. *)
Theorem only_conversation_id_is_written (rs : list request) s :
  (∀ key : string,
      key ≠ "conversation_id" →
      session (snd (run rs s)) !! key = session s !! key)
  ∧ dom (session (snd (run rs s))) ⊆ dom (session s) ∪ {[ "conversation_id" ]}.
Proof.
  assert (Hframe : ∀ key : string,
             key ≠ "conversation_id" →
             session (snd (run rs s)) !! key = session s !! key).
  { revert s. induction rs as [| r rs IH]; intros s key Hkey; [done |].
    rewrite run_cons. simpl. rewrite (IH _ key Hkey).
    destruct (serve_session_shape r s) as [-> | [v ->]]; [done |].
    by rewrite lookup_insert_ne. }
  split; [exact Hframe |].
  intros key Hin. apply elem_of_union.
  destruct (decide (key = "conversation_id")) as [-> | Hne].
  - right. by apply elem_of_singleton.
  - left. apply elem_of_dom. rewrite <- (Hframe key Hne). by apply elem_of_dom.
Qed.

(** Property X5. As long as [rag] keeps its interface, the session holds at
    every moment the conversation id of the most recent [/ask] that
    succeeded (a later success replaces it, failures and feedback do not),
    and what it held at the start if none has succeeded yet. *)
Theorem session_holds_last_answer (rs : list request) s
    (history : list (request * outcome dict)) (s' : state W) :
  rag_contract →
  run rs s = (history, s') →
  session s' !! "conversation_id"
  = last_conversation history (session s !! "conversation_id").
Proof.
  intros Hcontract. revert s history s'.
  induction rs as [| r rs IH]; intros s history s' Hrun.
  - by injection Hrun as <- <-.
  - rewrite run_cons in Hrun. injection Hrun as <- <-.
    rewrite last_conversation_cons.
    rewrite (IH (snd (serve r s)) _ _ (surjective_pairing _)).
    f_equal. apply (serve_session_exact r s _ _ Hcontract (surjective_pairing _)).
Qed.

(** Property X6. [/ask] stores the id before it builds the response: when the
    result of [rag] has an [id] but lacks one of the other five fields, the
    caller gets the fixed 500 and yet the session now holds the new id. *)
Theorem incomplete_answer_still_stores_id (q : QuestionRequest) s d (w' : W)
    (v_id : value) (key : string) :
  rag (question q) (ext s) = (Return d, w') →
  d !! "id" = Some v_id →
  key ∈ ["answer"; "relevance"; "response_time"; "total_tokens"; "openai_cost"] →
  d !! key = None →
  fst (ask_question q s) = Raise (HTTPException 500 (VStr "Error processing your question"))
  ∧ session (snd (ask_question q s)) = <["conversation_id" := v_id]> (session s).
Proof.
  intros Hrag Hid Hkey Hnone.
  split; [| by apply (ask_question_session_written q s d w')].
  destruct (ask_question q s) as [[resp | e] s1] eqn:Hask; simpl.
  - destruct (ask_question_return_inv q s resp s1 Hask)
      as (d0 & w0 & v1 & v2 & v3 & v4 & v5 & v6 & Hrag0 & H1 & H2 & H3 & H4 & H5 & H6).
    rewrite Hrag in Hrag0. injection Hrag0 as <- <-.
    rewrite !elem_of_cons, elem_of_nil in Hkey.
    destruct Hkey as [-> | [-> | [-> | [-> | [-> | []]]]]]; congruence.
  - by rewrite (ask_question_raise_inv q s e s1 Hask).
Qed.

(** Property X7. [/feedback] reads the result only after [submit_feedback]
    has run: when the result has no [status], or has a status other than
    ["success"] and no [message], the caller gets the generic 500 "Error
    processing your feedback" although the collaborator was called and the
    external world is as it left it. *)
Theorem malformed_feedback_result (fbr : FeedbackRequest) s (cid : value)
    (result : dict) (w' : W) :
  session s !! "conversation_id" = Some cid →
  truthy cid = true →
  feedback fbr = -1 ∨ feedback fbr = 1 →
  submit_feedback cid (feedback fbr) (ext s) = (Return result, w') →
  result !! "status" = None
  ∨ (∃ status, result !! "status" = Some status
               ∧ status ≠ VStr "success"
               ∧ result !! "message" = None) →
  ∃ missing : string,
    process_feedback fbr s
    = (Raise (HTTPException 500 (VStr "Error processing your feedback")),
       State (session s) w' (calls s ++ [CallSubmitFeedback cid (feedback fbr)])
         (logs s ++ [LogRecord INFO "Received feedback for conversation ID: " (PValue cid);
                     LogRecord ERROR "Error processing feedback: " (PExn (KeyError missing))])).
Proof.
  intros Hs Hv Hfb Hsubmit Hbad. apply feedback_allowed in Hfb.
  rewrite process_feedback_except, (process_feedback_body_submit fbr s cid Hs Hv Hfb), Hsubmit.
  destruct Hbad as [-> | (status & -> & Hne & ->)].
  - exists "status". simpl. by rewrite <- app_assoc.
  - exists "message". rewrite (eq_str_false _ _ Hne). simpl. by rewrite <- app_assoc.
Qed.



(** Property X10. A request turned away by the key check leaves no trace:
    wherever it stands in a sequence, the session, the external world, the
    collaborator calls and the log end up as if it had not been sent, and the
    other requests get the outcomes they would have had. *)
Theorem rejected_request_leaves_no_trace (rs1 rs2 : list request) (r : request)
    s (key : string) :
  x_api_key_of r = Some key →
  key ≠ getenv "API_KEY" "your-api-key" →
  snd (run (rs1 ++ r :: rs2) s) = snd (run (rs1 ++ rs2) s)
  ∧ fst (run (rs1 ++ r :: rs2) s)
    = fst (run rs1 s)
      ++ (r, Raise (HTTPException 401 (VStr "Invalid API Key")))
      :: fst (run rs2 (snd (run rs1 s)))
  ∧ fst (run (rs1 ++ rs2) s) = fst (run rs1 s) ++ fst (run rs2 (snd (run rs1 s))).
Proof.
  intros Hk Hne. rewrite !run_app, run_cons.
  rewrite (serve_rejected r _ key Hk Hne). done.
Qed.

(** Property X11. [/ask] does not check the id it stores: when [rag] answers
    with a falsy id (an empty string, 0, [None]) the question succeeds, and
    every [/feedback] that follows is refused with 400 "No active
    conversation found". *)
Theorem falsy_id_blocks_feedback (q : QuestionRequest) (fbr : FeedbackRequest)
    s (resp : dict) (s1 : state W) (cid : value) :
  ask_question q s = (Return resp, s1) →
  resp !! "conversation_id" = Some cid →
  truthy cid = false →
  process_feedback fbr s1
  = (Raise (HTTPException 400 (VStr "No active conversation found")), s1).
Proof.
  intros Hask Hresp Hv.
  destruct (ask_question_return_inv q s resp s1 Hask)
    as (d & w' & v1 & v2 & v3 & v4 & v5 & v6 & Hrag & H1 & H2 & H3 & H4 & H5 & H6).
  rewrite (ask_question_rag_returns q s d w' _ _ _ _ _ _ Hrag H1 H2 H3 H4 H5 H6) in Hask.
  injection Hask as <- <-.
  assert (Hsame : Some v1 = Some cid).
  { rewrite <- Hresp. symmetry. apply response_conversation_id. }
  injection Hsame as ->.
  apply (process_feedback_falsy fbr _ cid); [apply lookup_insert_eq | done].
Qed.

(** Property X12. The log of [/ask], line by line. The question is logged
    first, before [rag] is called, so it is in the log in every outcome. A
    success adds exactly the line with the new id. A failure always ends
    with one ERROR line, and that line carries the exception that caused the
    failure: the exception [rag] raised, or the [KeyError] of the first field
    missing from its result ([id] before the line with the id is written,
    any other field after it). *)
Theorem ask_question_log (q : QuestionRequest) s :
  logs (snd (ask_question q s))
  = logs s
    ++ LogRecord INFO "Received question: " (PValue (VStr (question q)))
    :: match rag (question q) (ext s) with
       | (Raise e, _) => [LogRecord ERROR "Error processing question: " (PExn e)]
       | (Return d, _) =>
           match d !! "id" with
           | None =>
               [LogRecord ERROR "Error processing question: " (PExn (KeyError "id"))]
           | Some v_id =>
               LogRecord INFO "Generated answer for conversation ID: " (PValue v_id)
               :: match first_missing d answer_keys with
                  | Some key =>
                      [LogRecord ERROR "Error processing question: "
                         (PExn (KeyError key))]
                  | None => []
                  end
           end
       end
  ∧ ((∃ resp : dict, fst (ask_question q s) = Return resp)
     ↔ ∃ d w', rag (question q) (ext s) = (Return d, w')
               ∧ first_missing d answer_keys = None).
Proof.
  split.
  - run_handler. unfold first_missing, answer_keys.
    destruct (rag (question q) (ext s)) as [[d | e] w']; simpl; split_lookups;
      rewrite <- ?app_assoc; reflexivity.
  - split.
    + intros [resp Hresp].
      destruct (ask_question q s) as [o s1] eqn:Hask. simpl in Hresp. subst o.
      destruct (ask_question_return_inv q s resp s1 Hask)
        as (d & w' & v1 & v2 & v3 & v4 & v5 & v6 & Hrag & H1 & H2 & H3 & H4 & H5 & H6).
      exists d, w'. split; [done |].
      unfold first_missing, answer_keys. simpl. by rewrite H1, H2, H3, H4, H5, H6.
    + intros (d & w' & Hrag & Hnone).
      unfold first_missing, answer_keys in Hnone. simpl in Hnone.
      destruct (d !! "id") as [v1 |] eqn:H1; [| discriminate].
      destruct (d !! "answer") as [v2 |] eqn:H2; [| discriminate].
      destruct (d !! "relevance") as [v3 |] eqn:H3; [| discriminate].
      destruct (d !! "response_time") as [v4 |] eqn:H4; [| discriminate].
      destruct (d !! "total_tokens") as [v5 |] eqn:H5; [| discriminate].
      destruct (d !! "openai_cost") as [v6 |] eqn:H6; [| discriminate].
      rewrite (ask_question_rag_returns q s d w' _ _ _ _ _ _ Hrag H1 H2 H3 H4 H5 H6).
      eauto.
Qed.

(** Property X13. The handlers read nothing they have no use for: what [/ask]
    answers depends on the external world alone, not on the session, and
    what [/feedback] answers depends on the external world and on what the
    session holds under [conversation_id], not on any other session key. *)
Theorem handlers_read_only_what_they_use (q : QuestionRequest)
    (fbr : FeedbackRequest) (s1 s2 : state W) :
  ext s1 = ext s2 →
  fst (ask_question q s1) = fst (ask_question q s2)
  ∧ (current_conversation s1 = current_conversation s2 →
     fst (process_feedback fbr s1) = fst (process_feedback fbr s2)).
Proof.
  intros Hext. split.
  - run_handler. rewrite Hext.
    destruct (rag (question q) (ext s2)) as [[d | e] w']; simpl; split_lookups; done.
  - unfold current_conversation. intros Hcur. run_handler. rewrite Hcur.
    destruct (truthy _); simpl; [| done].
    destruct (bool_decide _); simpl; [| done].
    rewrite Hext.
    destruct (submit_feedback _ _ _) as [[result | e] w']; simpl.
    + split_lookups; try destruct (eq_str _ _); simpl; split_lookups; done.
    + by destruct e.
Qed.

End Composition.

(** * Startup *)

Section Startup.
Context {W C : Type} `{!Database W C}.

Implicit Types (b : boot_state W C).

(** Property X14. [startup_event] calls [close()] on the connection the probe
    returned, once, before anything else touches the database, and on
    nothing when the probe returned [None] or raised: no connection obtained
    at startup is left open by the handler. *)
Theorem startup_closes_what_it_opens b :
  close_calls (snd (startup_event b))
  = close_calls b
    ++ match fst (get_db_connection (db b)) with
       | Return (Some conn) => [conn]
       | _ => []
       end
  ∧ (∀ (conn : C) (w : W),
        get_db_connection (db b) = (Return (Some conn), w) →
        db (snd (startup_event b)) = snd (close conn w)).
Proof.
  unfold startup_event.
  destruct (get_db_connection (db b)) as [[[conn |] | e] w0]; simpl.
  - destruct (close conn w0) as [[[] | e] w1] eqn:Hclose; simpl;
      (split; [done |]; intros ? ? [= <- <-]; by rewrite Hclose).
  - rewrite app_nil_r. split; [done |]. intros ? ? [=].
  - rewrite app_nil_r. split; [done |]. intros ? ? [=].
Qed.

(** Property X15. [startup_event] has no [try] block and the probe is
    advisory: it returns normally, having logged exactly one line, whenever
    the probe returned and [close()], if called, returned; the line is the
    ERROR one exactly when the probe returned [None], which does not abort
    startup. Otherwise it raises what the probe or [close()] raised and logs
    nothing. *)
Theorem startup_reports_once b :
  ((∃ l : level * string,
       lines (snd (startup_event b)) = lines b ++ [l]
       ∧ fst (startup_event b) = Return tt
       ∧ (fst l = ERROR ↔ fst (get_db_connection (db b)) = Return None))
   ∨ (lines (snd (startup_event b)) = lines b
      ∧ ∃ e, fst (startup_event b) = Raise e
             ∧ (fst (get_db_connection (db b)) = Raise e
                ∨ ∃ conn, fst (get_db_connection (db b)) = Return (Some conn)
                          ∧ fst (close conn (snd (get_db_connection (db b)))) = Raise e)))
  ∧ (fst (get_db_connection (db b)) = Return None →
     fst (startup_event b) = Return tt).
Proof.
  unfold startup_event.
  destruct (get_db_connection (db b)) as [[[conn |] | e] w0]; simpl.
  - split; [| discriminate].
    destruct (close conn w0) as [[[] | e] w1] eqn:Hclose; simpl.
    + left. eexists. split; [done |]. split; [done |]. simpl. split; discriminate.
    + right. split; [done |]. exists e. split; [done |]. right. exists conn. by rewrite Hclose.
  - split; [| done]. left. eexists. split; [done |]. by split.
  - split; [| discriminate]. right. split; [done |]. exists e. auto.
Qed.

End Startup.

(** * Further sample runs *)

(** A persistence collaborator that fails with an ordinary error: what
    leaves [/feedback] is an [HTTPException]. *)
Lemma only_http_errors_escape_witness :
  is_HTTPException (HTTPException 500 (VStr "Error processing your feedback")) = true
  ∧ fst (@serve _ (scripted ∅) (POST_feedback None {| feedback := 1 |})
           (in_conversation (VStr "c-1") [Raise (KeyError "rows")]))
    = Raise (HTTPException 500 (VStr "Error processing your feedback")).
Proof.
  split; [| by vm_compute].
  apply (@only_http_errors_escape _ (scripted ∅)
           (POST_feedback None {| feedback := 1 |})
           (in_conversation (VStr "c-1") [Raise (KeyError "rows")])
           (HTTPException 500 (VStr "Error processing your feedback"))
           (snd (@serve _ (scripted ∅) (POST_feedback None {| feedback := 1 |})
                   (in_conversation (VStr "c-1") [Raise (KeyError "rows")])))).
  by vm_compute.
Defined.

Lemma echo_contract : @rag_contract nat echo.
Proof.
  intros q w d w'. simpl. destruct (Nat.even w); [| discriminate].
  intros [= <- _] key Hkey. unfold answer_keys in Hkey.
  rewrite !elem_of_cons, elem_of_nil in Hkey.
  destruct Hkey as [-> | [-> | [-> | [-> | [-> | [-> | []]]]]]]; by eexists.
Qed.

(** Three questions, the last one failing, with feedback in between: the
    session ends with the id of the second. *)
Lemma session_holds_last_answer_witness :
  session (snd (@run nat echo
                  [POST_ask None {| question := "q1" |};
                   POST_feedback None {| feedback := 1 |};
                   POST_ask None {| question := "q2" |};
                   POST_ask None {| question := "q3" |}]
                  (fresh 0%nat)))
    !! "conversation_id"
  = Some (VStr "q2").
Proof.
  rewrite (@session_holds_last_answer nat echo _ (fresh 0%nat) _ _
             echo_contract (surjective_pairing _)).
  by vm_compute.
Defined.

(** An answer without its [answer] field: a 500, and the new id in the
    session. *)
Lemma incomplete_answer_still_stores_id_witness :
  fst (@ask_question _ (scripted ∅) {| question := "q" |}
         (in_conversation (VStr "c-0") [Return (delete "answer" sample_answer)]))
  = Raise (HTTPException 500 (VStr "Error processing your question"))
  ∧ session (snd (@ask_question _ (scripted ∅) {| question := "q" |}
                    (in_conversation (VStr "c-0")
                       [Return (delete "answer" sample_answer)])))
    = <["conversation_id" := VStr "c-1"]> {[ "conversation_id" := VStr "c-0" ]}.
Proof.
  apply (@incomplete_answer_still_stores_id _ (scripted ∅) {| question := "q" |}
           (in_conversation (VStr "c-0") [Return (delete "answer" sample_answer)])
           (delete "answer" sample_answer) [] (VStr "c-1") "answer").
  - reflexivity.
  - reflexivity.
  - apply list_elem_of_here.
  - reflexivity.
Defined.

(** A result without [status], and an error result without [message]. *)
Lemma malformed_feedback_result_witness :
  (∃ missing : string,
      @process_feedback _ (scripted ∅) {| feedback := 1 |}
        (in_conversation (VStr "c-1") [Return ∅])
      = (Raise (HTTPException 500 (VStr "Error processing your feedback")),
         State {[ "conversation_id" := VStr "c-1" ]} []
           [CallSubmitFeedback (VStr "c-1") 1]
           [LogRecord INFO "Received feedback for conversation ID: " (PValue (VStr "c-1"));
            LogRecord ERROR "Error processing feedback: " (PExn (KeyError missing))]))
  ∧ (∃ missing : string,
        @process_feedback _ (scripted ∅) {| feedback := -1 |}
          (in_conversation (VStr "c-1") [Return {[ "status" := VStr "error" ]}])
        = (Raise (HTTPException 500 (VStr "Error processing your feedback")),
           State {[ "conversation_id" := VStr "c-1" ]} []
             [CallSubmitFeedback (VStr "c-1") (-1)]
             [LogRecord INFO "Received feedback for conversation ID: " (PValue (VStr "c-1"));
              LogRecord ERROR "Error processing feedback: " (PExn (KeyError missing))])).
Proof.
  split.
  - apply (@malformed_feedback_result _ (scripted ∅) {| feedback := 1 |}
             (in_conversation (VStr "c-1") [Return ∅]) (VStr "c-1") ∅ []);
      [reflexivity | reflexivity | by right | reflexivity | by left].
  - apply (@malformed_feedback_result _ (scripted ∅) {| feedback := -1 |}
             (in_conversation (VStr "c-1") [Return {[ "status" := VStr "error" ]}])
             (VStr "c-1") {[ "status" := VStr "error" ]} []);
      [reflexivity | reflexivity | by left | reflexivity |].
    right. exists (VStr "error"). split; [reflexivity |]. split; [discriminate | reflexivity].
Defined.



(** A request with a wrong key between a question and its feedback. *)
Lemma rejected_request_leaves_no_trace_witness :
  snd (@run nat steady
         ([POST_ask None {| question := "q" |}]
          ++ POST_ask (Some "guess") {| question := "stolen" |}
          :: [POST_feedback None {| feedback := 1 |}]) (fresh 0%nat))
  = snd (@run nat steady
           ([POST_ask None {| question := "q" |}]
            ++ [POST_feedback None {| feedback := 1 |}]) (fresh 0%nat)).
Proof.
  apply (@rejected_request_leaves_no_trace nat steady
           [POST_ask None {| question := "q" |}]
           [POST_feedback None {| feedback := 1 |}]
           (POST_ask (Some "guess") {| question := "stolen" |})
           (fresh 0%nat) "guess"); [reflexivity | by vm_compute].
Defined.

(** An answer whose id is the empty string: the question succeeds, feedback
    on it is refused. *)
Lemma falsy_id_blocks_feedback_witness :
  fst (@process_feedback _ (scripted ∅) {| feedback := 1 |}
         (snd (@ask_question _ (scripted ∅) {| question := "q" |}
                 (fresh [Return (<["id" := VStr ""]> sample_answer); Return saved]))))
  = Raise (HTTPException 400 (VStr "No active conversation found")).
Proof.
  rewrite (@falsy_id_blocks_feedback _ (scripted ∅) {| question := "q" |}
             {| feedback := 1 |}
             (fresh [Return (<["id" := VStr ""]> sample_answer); Return saved])
             (list_to_map
                [("conversation_id", VStr "");
                 ("answer", VStr "Plug the controller in.");
                 ("relevance", VStr "RELEVANT");
                 ("response_time", VFloat (S754_finite false 3 (-1)));
                 ("total_tokens", VInt 120);
                 ("estimated_cost", VFloat (S754_finite false 1 (-10)))])
             _ (VStr "")).
  - reflexivity.
  - by vm_compute.
  - by vm_compute.
  - reflexivity.
Defined.

(** The log of a question whose answer lacks its [relevance] field, and a
    question that is answered because nothing is missing. *)
Lemma ask_question_log_witness :
  logs (snd (@ask_question _ (scripted ∅) {| question := "q" |}
               (fresh [Return (delete "relevance" sample_answer)])))
  = [LogRecord INFO "Received question: " (PValue (VStr "q"));
     LogRecord INFO "Generated answer for conversation ID: " (PValue (VStr "c-1"));
     LogRecord ERROR "Error processing question: " (PExn (KeyError "relevance"))]
  ∧ ∃ resp : dict,
      fst (@ask_question nat steady {| question := "q" |} (fresh 0%nat)) = Return resp.
Proof.
  split.
  - rewrite (proj1 (@ask_question_log _ (scripted ∅) {| question := "q" |}
                      (fresh [Return (delete "relevance" sample_answer)]))).
    by vm_compute.
  - apply (proj2 (proj2 (@ask_question_log nat steady {| question := "q" |}
                           (fresh 0%nat)))).
    exists sample_answer, 1%nat. split; reflexivity.
Defined.

(** Two sessions that differ in a key the gateway does not know, and in what
    has been logged: same answers. *)
Lemma handlers_read_only_what_they_use_witness :
  fst (@ask_question nat steady {| question := "q" |}
         (State {[ "theme" := VStr "dark" ]} 0%nat [CallRag "earlier"] []))
  = fst (@ask_question nat steady {| question := "q" |} (fresh 0%nat))
  ∧ fst (@process_feedback nat steady {| feedback := 1 |}
           (State (<["theme" := VStr "dark"]> {[ "conversation_id" := VStr "c-1" ]})
              0%nat [] []))
    = fst (@process_feedback nat steady {| feedback := 1 |}
             (in_conversation (VStr "c-1") 0%nat)).
Proof.
  split.
  - apply (proj1 (@handlers_read_only_what_they_use nat steady {| question := "q" |}
                    {| feedback := 1 |}
                    (State {[ "theme" := VStr "dark" ]} 0%nat [CallRag "earlier"] [])
                    (fresh 0%nat) eq_refl)).
  - destruct (@handlers_read_only_what_they_use nat steady {| question := "q" |}
                {| feedback := 1 |}
                (State (<["theme" := VStr "dark"]> {[ "conversation_id" := VStr "c-1" ]})
                   0%nat [] [])
                (in_conversation (VStr "c-1") 0%nat)) as [_ Hsame]; [reflexivity |].
    apply Hsame. by vm_compute.
Defined.

(** A session that came with a key of its own keeps it through a question
    and its feedback. *)
Lemma only_conversation_id_is_written_witness :
  session (snd (@run nat steady
                  [POST_ask None {| question := "q" |};
                   POST_feedback None {| feedback := 1 |}]
                  (State {[ "theme" := VStr "dark" ]} 0%nat [] [])))
    !! "theme"
  = Some (VStr "dark").
Proof.
  rewrite (proj1 (@only_conversation_id_is_written nat steady
                    [POST_ask None {| question := "q" |};
                     POST_feedback None {| feedback := 1 |}]
                    (State {[ "theme" := VStr "dark" ]} 0%nat [] []))
             "theme"); [reflexivity | discriminate].
Defined.

(** A database that is up: its connection is closed, and the database is as
    [close()] left it. *)
Lemma startup_closes_what_it_opens_witness :
  close_calls (snd (@startup_event unit nat db_up (BootState tt [] []))) = [7%nat]
  ∧ db (snd (@startup_event unit nat db_up (BootState tt [] []))) = tt.
Proof.
  split.
  - by rewrite (proj1 (@startup_closes_what_it_opens unit nat db_up (BootState tt [] []))).
  - apply (proj2 (@startup_closes_what_it_opens unit nat db_up (BootState tt [] []))
             7%nat tt).
    reflexivity.
Defined.

(** A database that is down does not stop the service from starting. *)
Lemma startup_reports_once_witness :
  fst (@startup_event unit nat db_down (BootState tt [] [])) = Return tt.
Proof.
  apply (proj2 (@startup_reports_once unit nat db_down (BootState tt [] []))).
  reflexivity.
Defined.

(** The three databases at startup. *)
Example startup_runs :
  @startup_event unit nat db_down (BootState tt [] [])
  = (Return tt,
     BootState tt []
       [(ERROR, "Failed to connect to the database. Please check your database configuration.")])
  ∧ @startup_event unit nat db_up (BootState tt [] [])
    = (Return tt, BootState tt [7%nat] [(INFO, "Successfully connected to the database.")])
  ∧ @startup_event unit nat db_broken (BootState tt [] [])
    = (Raise (OtherError "no driver"), BootState tt [] []).
Proof. by vm_compute. Qed.
